(** * Resource triggers of [samcli.lib.utils.resource_trigger]

    A shallow embedding of the trigger classes that turn a template
    resource into path handlers for the file observer, together with the
    parts of [re], [pathlib], [fnmatch] and [watchdog] that decide which
    events a handler built by those classes forwards.

    A Python object is its class and its attribute dictionary, which an
    initialiser fills; exceptions are an error outcome; callables stored
    on a handler are first-order values that [call] interprets. *)

From stdpp Require Import base strings gmap list.
From Stdlib Require Import Ascii String ZArith Lia.

Set Warnings "-register-all".
Open Scope string_scope.
#[local] Arguments String.append !s1 s2 / : simpl nomatch.

(** ** Exceptions and outcomes *)

Inductive exn : Type :=
| ResourceNotFound
| FunctionNotFound
| MissingCodeUri
| MissingDefinitionUri
| AttributeError
| TypeError
| ValueError
| re_error.

Inductive Outcome (A : Type) : Type :=
| Return (a : A)
| Raise (e : exn).
Arguments Return {A} a.
Arguments Raise {A} e.

Definition obind {A B} (m : Outcome A) (f : A -> Outcome B) : Outcome B :=
  match m with
  | Return a => f a
  | Raise e => Raise e
  end.

(** ** Characters and strings *)

Definition newline : ascii := "010"%char.
Definition NUL : ascii := "000"%char.

Definition ord (c : ascii) : N := N_of_ascii c.

Definition in_range (lo hi : N) (c : ascii) : bool :=
  ((lo <=? ord c) && (ord c <=? hi))%N.

Definition is_digit (c : ascii) : bool := in_range 48 57 c.
Definition is_octdigit (c : ascii) : bool := in_range 48 55 c.
Definition is_upper (c : ascii) : bool := in_range 65 90 c.
Definition is_lower (c : ascii) : bool := in_range 97 122 c.
Definition is_letter (c : ascii) : bool := is_upper c || is_lower c.

(** [str.lower] on the ASCII range. *)
Definition lower_char (c : ascii) : ascii :=
  if is_upper c then ascii_of_N (ord c + 32) else c.

Fixpoint lower (s : string) : string :=
  match s with
  | EmptyString => EmptyString
  | String c s' => String (lower_char c) (lower s')
  end.

(** ** [re.escape]

    The rule is the one the unit test of the single-file handler pins
    down ([/] is escaped): every character but ASCII letters, digits and
    [_] gets a backslash, and NUL becomes a three-digit octal escape. *)

Definition _alphanum (c : ascii) : bool :=
  is_letter c || is_digit c || Ascii.eqb c "_".

Definition escape_char (c : ascii) : string :=
  if _alphanum c then String c ""
  else if Ascii.eqb c NUL then "\000"
  else String "\" (String c "").

Fixpoint escape (pattern : string) : string :=
  match pattern with
  | EmptyString => EmptyString
  | String c s => escape_char c ++ escape s
  end.

(** ** Regular expressions

    The fragment of [re] patterns that the handlers can be given:
    anchors, the dot, literals and backslash escapes of non-alphanumeric
    characters or of an octal code starting with [0].  Repetition, sets,
    groups, alternation and the letter or digit escapes are outside the
    fragment and make [re_compile] fail. *)

Inductive Item : Type :=
| AT_BEGINNING
| AT_END
| ANY
| LITERAL (c : ascii).

Definition is_special (c : ascii) : bool :=
  existsb (Ascii.eqb c) (list_ascii_of_string "*+?{}[]()|").

Definition octal_value (c : ascii) : N := (ord c - 48)%N.

Fixpoint re_parse (s : string) : option (list Item) :=
  match s with
  | EmptyString => Some []
  | String c s1 =>
    if Ascii.eqb c "\" then
      match s1 with
      | EmptyString => None
      | String d s2 =>
        if Ascii.eqb d "0" then
          (* octal escape: up to two more octal digits *)
          match s2 with
          | String o1 s3 =>
            if is_octdigit o1 then
              match s3 with
              | String o2 s4 =>
                if is_octdigit o2 then
                  cons (LITERAL (ascii_of_N (8 * octal_value o1 + octal_value o2)))
                    <$> re_parse s4
                else cons (LITERAL (ascii_of_N (octal_value o1))) <$> re_parse s3
              | EmptyString => Some [LITERAL (ascii_of_N (octal_value o1))]
              end
            else cons (LITERAL NUL) <$> re_parse s2
          | EmptyString => Some [LITERAL NUL]
          end
        else if is_digit d || is_letter d then None
        else cons (LITERAL d) <$> re_parse s2
      end
    else if Ascii.eqb c "^" then cons AT_BEGINNING <$> re_parse s1
    else if Ascii.eqb c "$" then cons AT_END <$> re_parse s1
    else if Ascii.eqb c "." then cons ANY <$> re_parse s1
    else if is_special c then None
    else cons (LITERAL c) <$> re_parse s1
  end.

(** A compiled pattern; [re_ignorecase] is the [re.I] flag. *)
Record SRE_Pattern : Type := {
  re_items : list Item;
  re_ignorecase : bool
}.

Definition re_compile (pattern : string) (ignorecase : bool) : Outcome SRE_Pattern :=
  match re_parse pattern with
  | Some items => Return {| re_items := items; re_ignorecase := ignorecase |}
  | None => Raise re_error
  end.

Definition char_eq (ignorecase : bool) (c d : ascii) : bool :=
  if ignorecase then Ascii.eqb (lower_char c) (lower_char d) else Ascii.eqb c d.

(** [$] holds at the end of the subject and also just before a newline
    that ends it. *)
Definition at_end (rest : string) : bool :=
  String.eqb rest "" || String.eqb rest (String newline "").

(** Matching from a position: [at_start] tells whether the position is
    the beginning of the subject, [rest] is what is left of it. *)
Fixpoint match_items (ic : bool) (items : list Item) (at_start : bool)
    (rest : string) : bool :=
  match items with
  | [] => true
  | AT_BEGINNING :: r => at_start && match_items ic r at_start rest
  | AT_END :: r => at_end rest && match_items ic r at_start rest
  | ANY :: r =>
    match rest with
    | String c rest' => negb (Ascii.eqb c newline) && match_items ic r false rest'
    | EmptyString => false
    end
  | LITERAL c :: r =>
    match rest with
    | String d rest' => char_eq ic c d && match_items ic r false rest'
    | EmptyString => false
    end
  end.

(** [Pattern.match]: the pattern must match at the start of the subject
    and need not reach its end. *)
Definition re_match (r : SRE_Pattern) (subject : string) : bool :=
  match_items (re_ignorecase r) (re_items r) true subject.

(** The items of a pattern that spells a string literally. *)
Fixpoint literals (s : string) : list Item :=
  match s with
  | EmptyString => []
  | String c s' => LITERAL c :: literals s'
  end.

(** ** [fnmatch.fnmatchcase]

    Shell-style matching of one name: [*] stands for any run of
    characters, [?] for one character, anything else for itself.
    Bracket expressions are left out; no trigger installs one. *)

Fixpoint fnmatchcase_from (pat : string) (name : string) {struct pat} : bool :=
  match pat with
  | EmptyString => String.eqb name ""
  | String c pat' =>
    if Ascii.eqb c "*" then
      (fix star (n : string) : bool :=
         fnmatchcase_from pat' n ||
         match n with
         | EmptyString => false
         | String _ n' => star n'
         end) name
    else
      match name with
      | EmptyString => false
      | String d name' =>
        (Ascii.eqb c "?" || Ascii.eqb c d) && fnmatchcase_from pat' name'
      end
  end.

Definition fnmatchcase (name pat : string) : bool := fnmatchcase_from pat name.

(** ** [pathlib.PurePosixPath] *)

Definition sep : ascii := "/"%char.

(** [s.split("/")] *)
Fixpoint split_sep (s : string) : list string :=
  match s with
  | EmptyString => [""]
  | String c s' =>
    if Ascii.eqb c sep then "" :: split_sep s'
    else match split_sep s' with
         | x :: r => String c x :: r
         | [] => [String c ""]
         end
  end.

(** [s.lstrip("/")] *)
Fixpoint lstrip_sep (s : string) : string :=
  match s with
  | String c s' => if Ascii.eqb c sep then lstrip_sep s' else s
  | EmptyString => EmptyString
  end.

(** The root of a path and what follows it: exactly two leading slashes
    are kept as a root of their own, any other number collapses to one. *)
Definition splitroot (part : string) : string * string :=
  match part with
  | String c _ =>
    if Ascii.eqb c sep then
      let stripped_part := lstrip_sep part in
      if Nat.eqb (String.length part - String.length stripped_part) 2
      then ("//", stripped_part)
      else ("/", stripped_part)
    else ("", part)
  | EmptyString => ("", part)
  end.

(** A path that starts at a root. *)
Definition is_absolute (p : string) : bool :=
  match p with
  | String c _ => Ascii.eqb c sep
  | EmptyString => false
  end.

Record PurePosixPath : Type := {
  _root : string;
  _parts : list string
}.

Definition is_name (x : string) : bool :=
  negb (String.eqb x "") && negb (String.eqb x ".").

(** [parse_parts] on a single argument: the root, when there is one, is
    the first part; empty components and [.] are dropped. *)
Definition parse_parts (part : string) : PurePosixPath :=
  let '(root, rel) := splitroot part in
  let parsed := List.filter is_name (split_sep rel) in
  {| _root := root;
     _parts := if String.eqb root "" then parsed else root :: parsed |}.

(** [PurePath.match]: a relative pattern is matched from the right, an
    anchored one must account for every part. *)
Definition PurePosixPath_match (self : PurePosixPath) (path_pattern : string)
  : Outcome bool :=
  let pat := parse_parts path_pattern in
  let pat_parts := _parts pat in
  match pat_parts with
  | [] => Raise ValueError
  | _ :: pat_tail =>
    if negb (String.eqb (_root pat) "") && negb (String.eqb (_root pat) (_root self))
    then Return false
    else
      let parts := _parts self in
      if negb (String.eqb (_root pat) "") then
        if negb (Nat.eqb (List.length pat_parts) (List.length parts)) then Return false
        else Return (forallb (fun '(part, p) => fnmatchcase part p)
                       (combine (rev parts) (rev pat_tail)))
      else if Nat.ltb (List.length parts) (List.length pat_parts) then Return false
      else Return (forallb (fun '(part, p) => fnmatchcase part p)
                     (combine (rev parts) (rev pat_parts)))
  end.

(** ** File system events of [watchdog] *)

Inductive EventType : Type :=
| EVENT_TYPE_MOVED
| EVENT_TYPE_DELETED
| EVENT_TYPE_CREATED
| EVENT_TYPE_MODIFIED
| EVENT_TYPE_CLOSED.

(** Only a moved event has a destination path. *)
Record FileSystemEvent : Type := {
  event_type : EventType;
  src_path : string;
  dest_path : option string;
  is_directory : bool
}.

(** The paths [dispatch] tests: the destination when the event has one,
    then the source unless it is empty. *)
Definition event_paths (event : FileSystemEvent) : list string :=
  match dest_path event with Some d => [d] | None => [] end ++
  (if String.eqb (src_path event) "" then [] else [src_path event]).

(** ** Template values and provider records *)

(** A value of a parsed template ([Dict[str, Any]]). *)
Inductive PyVal : Type :=
| PNone
| PBool (b : bool)
| PInt (z : Z)
| PStr (s : string)
| PList (l : list PyVal)
| PDict (d : gmap string PyVal).

(** Truth value of a dictionary: false exactly when it is empty. *)
Definition dict_truthy {V} (d : gmap string V) : bool := negb (bool_decide (d = ∅)).

(** Python's truth value testing, as [not x] uses it. *)
Definition truthy (v : PyVal) : bool :=
  match v with
  | PNone => false
  | PBool b => b
  | PInt z => negb (Z.eqb z 0)
  | PStr s => negb (String.eqb s "")
  | PList l => match l with [] => false | _ :: _ => true end
  | PDict d => dict_truthy d
  end.

(** Truth value of an [Optional[str]]. *)
Definition str_truthy (o : option string) : bool :=
  match o with
  | Some s => negb (String.eqb s "")
  | None => false
  end.

(** The fields of a provider's [Function] that the triggers read. *)
Module Function.
Record t : Type := {
  codeuri : option string;
  metadata : option (gmap string string)
}.
End Function.

(** The field of a provider's [LayerVersion] that the triggers read. *)
Module LayerVersion.
Record t : Type := {
  codeuri : option string
}.
End LayerVersion.

(** ** State and exceptions *)

Definition ST (S A : Type) : Type := S -> Outcome A * S.

Definition ret {S A} (a : A) : ST S A := fun s => (Return a, s).
Definition raise {S A} (e : exn) : ST S A := fun s => (Raise e, s).
Definition bind {S A B} (m : ST S A) (f : A -> ST S B) : ST S B :=
  fun s =>
    match m s with
    | (Return a, s') => f a s'
    | (Raise e, s') => (Raise e, s')
    end.
Definition lift {S A} (o : Outcome A) : ST S A := fun s => (o, s).
Definition get_state {S} : ST S S := fun s => (Return s, s).
Definition modify {S} (f : S -> S) : ST S unit := fun s => (Return tt, f s).

Notation "x <- m ;; k" := (bind m (fun x => k))
  (at level 100, m at next level, right associativity).
Notation "m ;;; k" := (bind m (fun _ => k))
  (at level 100, right associativity).

(** ** The collaborators

    What the module imports from the rest of the code base and from the
    file system: stack resolution, the function and layer providers, the
    definition validator, [pathlib.Path] and the callables the caller
    hands in.  [resolve] is taken against one fixed working directory
    and link structure.  The world is everything a validator or a
    callback can read or change. *)

Class Collaborators : Type := {
  Stack : Type;
  ResourceIdentifier : Type;
  OnChangeCallback : Type;
  Path : Type;
  DefinitionValidator : Type;
  World : Type;
  (** [get_resource_by_id(stacks, identifier)] *)
  get_resource_by_id : list Stack -> ResourceIdentifier -> option (gmap string PyVal);
  (** [str(identifier)] *)
  identifier_str : ResourceIdentifier -> string;
  (** [SamFunctionProvider(stacks).get(name)] *)
  SamFunctionProvider_get : list Stack -> string -> option Function.t;
  (** [SamLayerProvider(stacks).get(name)] *)
  SamLayerProvider_get : list Stack -> string -> option LayerVersion.t;
  (** [Path(s)], [p.resolve()], [p.parent], [str(p)] *)
  Path_of : string -> Path;
  resolve : Path -> Path;
  parent : Path -> Path;
  path_str : Path -> string;
  (** [DefinitionValidator(path)] and its [validate()] *)
  new_DefinitionValidator : Path -> DefinitionValidator;
  validate : DefinitionValidator -> World -> bool * World;
  (** calling a supplied callback with an optional event *)
  run_callback : OnChangeCallback -> option FileSystemEvent -> World -> Outcome unit * World;
  (** [PureWindowsPath(path).match(pattern)], the flavour that
      case-insensitive pattern matching selects *)
  PureWindowsPath_match : string -> string -> Outcome bool
}.

Section Triggers.
Context `{Collaborators}.

(** ** Objects *)

Inductive ClassName : Type :=
| TemplateTrigger
| LambdaZipCodeTrigger
| LambdaImageCodeTrigger
| LambdaLayerCodeTrigger
| APIGatewayCodeTrigger.

(** What an attribute of a trigger can hold. *)
Inductive Attr : Type :=
| AVal (v : PyVal)
| AStr (s : string)
| ACallback (cb : OnChangeCallback)
| AValidator (v : DefinitionValidator)
| AResource (r : gmap string PyVal)
| AFunction (f : Function.t)
| ALayer (l : LayerVersion.t).

(** An instance: its class and its attribute dictionary. *)
Record Obj : Type := {
  __class__ : ClassName;
  __dict__ : gmap string Attr
}.

(** An initialiser runs on the object under construction. *)
Definition Init (A : Type) : Type := ST Obj A.

(** [self.name = a] *)
Definition with_attr (name : string) (a : Attr) (self : Obj) : Obj :=
  {| __class__ := __class__ self; __dict__ := <[name := a]> (__dict__ self) |}.

Definition setattr (name : string) (a : Attr) : Init unit :=
  modify (with_attr name a).

Definition getattr (self : Obj) (name : string) : Outcome Attr :=
  match __dict__ self !! name with
  | Some a => Return a
  | None => Raise AttributeError
  end.

(** A new instance of a class, before its initialiser runs. *)
Definition fresh (cls : ClassName) : Obj := {| __class__ := cls; __dict__ := ∅ |}.

(** [cls(...)]: a fresh instance is initialised and returned; when the
    initialiser raises, the exception propagates and the instance is
    dropped. *)
Definition new (cls : ClassName) (__init__ : Init unit) : Outcome Obj :=
  match __init__ (fresh cls) with
  | (Return _, self) => Return self
  | (Raise e, _) => Raise e
  end.

(** ** Callables, event handlers and path handlers *)

(** What a handler slot can refer to: the method every event handler
    inherits, which does nothing; a callable supplied by the caller; or
    the bound method [self._validator_wrapper] of a trigger. *)
Inductive Callable : Type :=
| FileSystemEventHandler_on_any_event
| callback (cb : OnChangeCallback)
| bound__validator_wrapper (self : Obj).

Inductive Matching : Type :=
| RegexMatching (regexes ignore_regexes : list SRE_Pattern)
| PatternMatching (patterns ignore_patterns : list string).

Record EventHandler : Type := {
  matching : Matching;
  ignore_directories : bool;
  case_sensitive : bool;
  on_any_event : Callable
}.

Definition set_on_any_event (f : Callable) (h : EventHandler) : EventHandler :=
  {| matching := matching h;
     ignore_directories := ignore_directories h;
     case_sensitive := case_sensitive h;
     on_any_event := f |}.

Record PathHandler : Type := {
  path : Path;
  event_handler : EventHandler;
  recursive : bool;
  static_folder : bool;
  self_create : option Callable;
  self_delete : option Callable
}.

Definition set_self_create (f : Callable) (h : PathHandler) : PathHandler :=
  {| path := path h; event_handler := event_handler h; recursive := recursive h;
     static_folder := static_folder h;
     self_create := Some f; self_delete := self_delete h |}.

Definition set_self_delete (f : Callable) (h : PathHandler) : PathHandler :=
  {| path := path h; event_handler := event_handler h; recursive := recursive h;
     static_folder := static_folder h;
     self_create := self_create h; self_delete := Some f |}.

Definition set_event_handler (eh : EventHandler) (h : PathHandler) : PathHandler :=
  {| path := path h; event_handler := eh; recursive := recursive h;
     static_folder := static_folder h;
     self_create := self_create h; self_delete := self_delete h |}.

(** [[f(x) for x in xs]] where [f] may raise *)
Fixpoint mapM {A B} (f : A -> Outcome B) (xs : list A) : Outcome (list B) :=
  match xs with
  | [] => Return []
  | x :: r => obind (f x) (fun y => obind (mapM f r) (fun ys => Return (y :: ys)))
  end.

(** The regular expressions are compiled when the handler is built,
    with [re.I] unless the handler is case sensitive. *)
Definition RegexMatchingEventHandler (regexes ignore_regexes : list string)
    (ignore_directories case_sensitive : bool) : Outcome EventHandler :=
  obind (mapM (fun r => re_compile r (negb case_sensitive)) regexes) (fun rs =>
  obind (mapM (fun r => re_compile r (negb case_sensitive)) ignore_regexes) (fun irs =>
  Return {| matching := RegexMatching rs irs;
            ignore_directories := ignore_directories;
            case_sensitive := case_sensitive;
            on_any_event := FileSystemEventHandler_on_any_event |})).

Definition PatternMatchingEventHandler (patterns ignore_patterns : list string)
    (ignore_directories case_sensitive : bool) : EventHandler :=
  {| matching := PatternMatching patterns ignore_patterns;
     ignore_directories := ignore_directories;
     case_sensitive := case_sensitive;
     on_any_event := FileSystemEventHandler_on_any_event |}.

(** ** Which events a handler forwards *)

(** [any(m(p) for p in patterns)] where [m] may raise *)
Fixpoint any_pattern (m : string -> Outcome bool) (patterns : list string)
  : Outcome bool :=
  match patterns with
  | [] => Return false
  | p :: r => obind (m p) (fun b => if b then Return true else any_pattern m r)
  end.

(** [watchdog.utils.patterns._match_path] *)
Definition _match_path (path_ : string) (included_patterns excluded_patterns : list string)
    (case_sensitive : bool) : Outcome bool :=
  let m := if case_sensitive then PurePosixPath_match (parse_parts path_)
           else PureWindowsPath_match path_ in
  let included := if case_sensitive then included_patterns else map lower included_patterns in
  let excluded := if case_sensitive then excluded_patterns else map lower excluded_patterns in
  if existsb (fun p => existsb (String.eqb p) excluded) included then Raise ValueError
  else obind (any_pattern m included) (fun inc =>
         if inc then obind (any_pattern m excluded) (fun exc => Return (negb exc))
         else Return false).

(** [watchdog.utils.patterns.match_any_paths] *)
Fixpoint match_any_paths (paths : list string) (included_patterns excluded_patterns : list string)
    (case_sensitive : bool) : Outcome bool :=
  match paths with
  | [] => Return false
  | p :: r =>
    obind (_match_path p included_patterns excluded_patterns case_sensitive) (fun b =>
      if b then Return true
      else match_any_paths r included_patterns excluded_patterns case_sensitive)
  end.

(** [any(r.match(p) for r in regexes for p in paths)] *)
Definition any_regex (regexes : list SRE_Pattern) (paths : list string) : bool :=
  existsb (fun r => existsb (re_match r) paths) regexes.

(** The match rule of a handler, applied to the paths of one event. *)
Definition matches (h : EventHandler) (paths : list string) : Outcome bool :=
  match matching h with
  | RegexMatching regexes ignore_regexes =>
    if any_regex ignore_regexes paths then Return false
    else Return (any_regex regexes paths)
  | PatternMatching patterns ignore_patterns =>
    match_any_paths paths patterns ignore_patterns (case_sensitive h)
  end.

(** Whether [dispatch] hands the event to [on_any_event]. *)
Definition forwards (h : EventHandler) (event : FileSystemEvent) : Outcome bool :=
  if ignore_directories h && is_directory event then Return false
  else matches h (event_paths event).

(** ** The path handler factories of [ResourceTrigger] *)

Definition single_file_regex (file_path : Path) : string :=
  "^" ++ escape (path_str file_path) ++ "$".

Definition get_single_file_path_handler (file_path_str : string) : Outcome PathHandler :=
  let file_path := resolve (Path_of file_path_str) in
  let folder_path := parent file_path in
  obind (RegexMatchingEventHandler [single_file_regex file_path] [] true true)
    (fun file_handler =>
       Return {| path := folder_path; event_handler := file_handler;
                 recursive := false; static_folder := false;
                 self_create := None; self_delete := None |}).

Definition get_dir_path_handler (dir_path_str : string) : PathHandler :=
  let dir_path := resolve (Path_of dir_path_str) in
  let file_handler := PatternMatchingEventHandler ["*"] [] false true in
  {| path := dir_path; event_handler := file_handler;
     recursive := true; static_folder := true;
     self_create := None; self_delete := None |}.

(** ** Attribute access *)

Definition as_function (a : Attr) : Outcome Function.t :=
  match a with AFunction f => Return f | _ => Raise AttributeError end.
Definition as_layer (a : Attr) : Outcome LayerVersion.t :=
  match a with ALayer l => Return l | _ => Raise AttributeError end.
Definition as_resource (a : Attr) : Outcome (gmap string PyVal) :=
  match a with AResource r => Return r | _ => Raise AttributeError end.
Definition as_validator (a : Attr) : Outcome DefinitionValidator :=
  match a with AValidator v => Return v | _ => Raise AttributeError end.
Definition as_callable (a : Attr) : Outcome OnChangeCallback :=
  match a with ACallback cb => Return cb | _ => Raise TypeError end.

(** The string a [Path(...)] or [str]-typed parameter receives; anything
    but a string is a [TypeError]. *)
Definition as_str (a : Attr) : Outcome string :=
  match a with
  | AStr s => Return s
  | AVal (PStr s) => Return s
  | _ => Raise TypeError
  end.

Definition self_attr (name : string) : Init Attr :=
  fun self => (getattr self name, self).

(** ** The initialisers *)

Definition TemplateTrigger___init__ (template_file : string)
    (on_template_change : OnChangeCallback) : Init unit :=
  setattr "_template_file" (AStr template_file) ;;;
  setattr "_on_template_change" (ACallback on_template_change) ;;;
  a <- self_attr "_template_file" ;;
  f <- lift (as_str a) ;;
  setattr "_validator" (AValidator (new_DefinitionValidator (Path_of f))).

Definition CodeResourceTrigger___init__ (resource_identifier : ResourceIdentifier)
    (stacks : list Stack) (on_code_change : OnChangeCallback) : Init unit :=
  match get_resource_by_id stacks resource_identifier with
  | Some resource =>
    if negb (dict_truthy resource) then raise ResourceNotFound
    else
      setattr "_resource" (AResource resource) ;;;
      setattr "_on_code_change" (ACallback on_code_change)
  | None => raise ResourceNotFound
  end.

(** The code location strategy, resolved on the class of [self]. *)
Definition _get_code_uri : Init (option string) :=
  self <- get_state ;;
  match __class__ self with
  | LambdaZipCodeTrigger =>
    function <- lift (obind (getattr self "_function") as_function) ;;
    ret (Function.codeuri function)
  | LambdaImageCodeTrigger =>
    function <- lift (obind (getattr self "_function") as_function) ;;
    match Function.metadata function with
    | None => ret None
    | Some metadata =>
      if negb (dict_truthy metadata) then ret None
      else ret (metadata !! "DockerContext")
    end
  | _ => raise AttributeError
  end.

Definition LambdaFunctionCodeTrigger___init__ (function_identifier : ResourceIdentifier)
    (stacks : list Stack) (on_code_change : OnChangeCallback) : Init unit :=
  CodeResourceTrigger___init__ function_identifier stacks on_code_change ;;;
  match SamFunctionProvider_get stacks (identifier_str function_identifier) with
  | None => raise FunctionNotFound
  | Some function =>
    setattr "_function" (AFunction function) ;;;
    code_uri <- _get_code_uri ;;
    if negb (str_truthy code_uri) then raise MissingCodeUri
    else setattr "_code_uri" (AStr (default "" code_uri))
  end.

Definition LambdaLayerCodeTrigger___init__ (layer_identifier : ResourceIdentifier)
    (stacks : list Stack) (on_code_change : OnChangeCallback) : Init unit :=
  CodeResourceTrigger___init__ layer_identifier stacks on_code_change ;;;
  match SamLayerProvider_get stacks (identifier_str layer_identifier) with
  | None => raise ResourceNotFound
  | Some layer =>
    setattr "_layer" (ALayer layer) ;;;
    a <- self_attr "_layer" ;;
    l <- lift (as_layer a) ;;
    let code_uri := LayerVersion.codeuri l in
    if negb (str_truthy code_uri) then raise MissingCodeUri
    else setattr "_code_uri" (AStr (default "" code_uri))
  end.

(** [d.get(key, default)] on a template value: only a dictionary has
    the method. *)
Definition py_get (v : PyVal) (key : string) (dflt : PyVal) : Outcome PyVal :=
  match v with
  | PDict d => Return (default dflt (d !! key))
  | _ => Raise AttributeError
  end.

Definition APIGatewayCodeTrigger___init__ (rest_api_identifier : ResourceIdentifier)
    (stacks : list Stack) (on_code_change : OnChangeCallback) : Init unit :=
  CodeResourceTrigger___init__ rest_api_identifier stacks on_code_change ;;;
  a <- self_attr "_resource" ;;
  resource <- lift (as_resource a) ;;
  properties <- lift (py_get (PDict resource) "Properties" (PDict ∅)) ;;
  definition_file <- lift (py_get properties "DefinitionUri" PNone) ;;
  if negb (truthy definition_file) then raise MissingDefinitionUri
  else
    setattr "_definition_file" (AVal definition_file) ;;;
    a <- self_attr "_definition_file" ;;
    f <- lift (as_str a) ;;
    setattr "_validator" (AValidator (new_DefinitionValidator (Path_of f))).

(** ** Construction *)

Definition new_TemplateTrigger (template_file : string)
    (on_template_change : OnChangeCallback) : Outcome Obj :=
  new TemplateTrigger (TemplateTrigger___init__ template_file on_template_change).

(** The initialiser a class of code resource trigger inherits or
    defines. *)
Definition code_trigger___init__ (cls : ClassName) (resource_identifier : ResourceIdentifier)
    (stacks : list Stack) (on_code_change : OnChangeCallback) : Init unit :=
  match cls with
  | LambdaZipCodeTrigger | LambdaImageCodeTrigger =>
    LambdaFunctionCodeTrigger___init__ resource_identifier stacks on_code_change
  | LambdaLayerCodeTrigger =>
    LambdaLayerCodeTrigger___init__ resource_identifier stacks on_code_change
  | APIGatewayCodeTrigger =>
    APIGatewayCodeTrigger___init__ resource_identifier stacks on_code_change
  | TemplateTrigger => raise TypeError
  end.

Definition new_code_trigger (cls : ClassName) (resource_identifier : ResourceIdentifier)
    (stacks : list Stack) (on_code_change : OnChangeCallback) : Outcome Obj :=
  new cls (code_trigger___init__ cls resource_identifier stacks on_code_change).

Definition is_code_trigger (cls : ClassName) : bool :=
  match cls with TemplateTrigger => false | _ => true end.

Definition is_function_trigger (cls : ClassName) : bool :=
  match cls with LambdaZipCodeTrigger | LambdaImageCodeTrigger => true | _ => false end.

(** ** Resolving a trigger to its path handlers *)

Definition TemplateTrigger_get_path_handlers (self : Obj) : Outcome (list PathHandler) :=
  obind (obind (getattr self "_template_file") as_str) (fun template_file =>
  obind (get_single_file_path_handler template_file) (fun file_path_handler =>
  Return
    [set_event_handler
       (set_on_any_event (bound__validator_wrapper self) (event_handler file_path_handler))
       file_path_handler])).

Definition LambdaFunctionCodeTrigger_get_path_handlers (self : Obj)
  : Outcome (list PathHandler) :=
  obind (obind (getattr self "_code_uri") as_str) (fun code_uri =>
  obind (obind (getattr self "_on_code_change") as_callable) (fun on_code_change =>
  let dir_path_handler := get_dir_path_handler code_uri in
  let dir_path_handler := set_self_create (callback on_code_change) dir_path_handler in
  let dir_path_handler := set_self_delete (callback on_code_change) dir_path_handler in
  Return
    [set_event_handler
       (set_on_any_event (callback on_code_change) (event_handler dir_path_handler))
       dir_path_handler])).

Definition LambdaLayerCodeTrigger_get_path_handlers (self : Obj)
  : Outcome (list PathHandler) :=
  obind (obind (getattr self "_code_uri") as_str) (fun code_uri =>
  obind (obind (getattr self "_on_code_change") as_callable) (fun on_code_change =>
  let dir_path_handler := get_dir_path_handler code_uri in
  let dir_path_handler := set_self_create (callback on_code_change) dir_path_handler in
  let dir_path_handler := set_self_delete (callback on_code_change) dir_path_handler in
  Return
    [set_event_handler
       (set_on_any_event (callback on_code_change) (event_handler dir_path_handler))
       dir_path_handler])).

Definition APIGatewayCodeTrigger_get_path_handlers (self : Obj) : Outcome (list PathHandler) :=
  obind (obind (getattr self "_definition_file") as_str) (fun definition_file =>
  obind (get_single_file_path_handler definition_file) (fun file_path_handler =>
  Return
    [set_event_handler
       (set_on_any_event (bound__validator_wrapper self) (event_handler file_path_handler))
       file_path_handler])).

Definition get_path_handlers (self : Obj) : Outcome (list PathHandler) :=
  match __class__ self with
  | TemplateTrigger => TemplateTrigger_get_path_handlers self
  | LambdaZipCodeTrigger | LambdaImageCodeTrigger =>
    LambdaFunctionCodeTrigger_get_path_handlers self
  | LambdaLayerCodeTrigger => LambdaLayerCodeTrigger_get_path_handlers self
  | APIGatewayCodeTrigger => APIGatewayCodeTrigger_get_path_handlers self
  end.

(** ** Running handlers

    The state of a run: the world, and a log of the calls made to
    supplied callbacks, kept to count them. *)

Record Run : Type := {
  world : World;
  calls : list (OnChangeCallback * option FileSystemEvent)
}.

Definition M (A : Type) : Type := ST Run A.

(** Calling a supplied callback. *)
Definition invoke (cb : OnChangeCallback) (event : option FileSystemEvent) : M unit :=
  fun st =>
    let '(r, w) := run_callback cb event (world st) in
    (r, {| world := w; calls := calls st ++ [(cb, event)] |}).

(** [validator.validate()] *)
Definition validate_ (v : DefinitionValidator) : M bool :=
  fun st =>
    let '(b, w) := validate v (world st) in
    (Return b, {| world := w; calls := calls st |}).

Definition TemplateTrigger__validator_wrapper (self : Obj)
    (event : option FileSystemEvent) : M unit :=
  v <- lift (obind (getattr self "_validator") as_validator) ;;
  valid <- validate_ v ;;
  if valid then
    cb <- lift (obind (getattr self "_on_template_change") as_callable) ;;
    invoke cb event
  else ret tt.

Definition APIGatewayCodeTrigger__validator_wrapper (self : Obj)
    (event : option FileSystemEvent) : M unit :=
  v <- lift (obind (getattr self "_validator") as_validator) ;;
  valid <- validate_ v ;;
  if valid then
    cb <- lift (obind (getattr self "_on_code_change") as_callable) ;;
    invoke cb event
  else ret tt.

(** [self._validator_wrapper(event)], resolved on the class of [self]. *)
Definition _validator_wrapper (self : Obj) (event : option FileSystemEvent) : M unit :=
  match __class__ self with
  | TemplateTrigger => TemplateTrigger__validator_wrapper self event
  | APIGatewayCodeTrigger => APIGatewayCodeTrigger__validator_wrapper self event
  | _ => raise AttributeError
  end.

Definition call (f : Callable) (event : option FileSystemEvent) : M unit :=
  match f with
  | FileSystemEventHandler_on_any_event => ret tt
  | callback cb => invoke cb event
  | bound__validator_wrapper self => _validator_wrapper self event
  end.

(** [handler.dispatch(event)]: an event the handler forwards goes to
    [on_any_event]; the per-type methods that follow do nothing. *)
Definition dispatch (h : EventHandler) (event : FileSystemEvent) : M unit :=
  b <- lift (forwards h event) ;;
  if b then call (on_any_event h) (Some event) else ret tt.

(** ** Notions used in the statements *)

(** Whether [get_resource_by_id] found a resource the initialiser
    accepts. *)
Definition resource_found (stacks : list Stack) (resource_identifier : ResourceIdentifier)
  : option (gmap string PyVal) :=
  match get_resource_by_id stacks resource_identifier with
  | Some resource => if dict_truthy resource then Some resource else None
  | None => None
  end.

(** The value under [DefinitionUri] in the [Properties] of a resource,
    when both are there. *)
Definition DefinitionUri_of (resource : gmap string PyVal) : option PyVal :=
  match resource !! "Properties" with
  | Some (PDict properties) => properties !! "DefinitionUri"
  | _ => None
  end.

(** The [Properties] of a resource are missing or a dictionary. *)
Definition Properties_absent_or_dict (resource : gmap string PyVal) : bool :=
  match resource !! "Properties" with
  | None | Some (PDict _) => true
  | Some _ => false
  end.

(** The code location in the words of the specification: the [codeUri]
    field for a zip function; for an image function the [DockerContext]
    entry of the metadata, nothing when there is no metadata or no such
    entry.  To be compared with [_get_code_uri]. *)
Definition spec_code_location (cls : ClassName) (function : Function.t) : option string :=
  match cls with
  | LambdaImageCodeTrigger =>
    match Function.metadata function with
    | Some metadata => metadata !! "DockerContext"
    | None => None
    end
  | _ => Function.codeuri function
  end.

(** Triggers that watch a code directory, and triggers that watch one
    file. *)
Definition directory_based (cls : ClassName) : bool :=
  match cls with
  | LambdaZipCodeTrigger | LambdaImageCodeTrigger | LambdaLayerCodeTrigger => true
  | TemplateTrigger | APIGatewayCodeTrigger => false
  end.

Definition single_file_based (cls : ClassName) : bool :=
  match cls with
  | TemplateTrigger | APIGatewayCodeTrigger => true
  | LambdaZipCodeTrigger | LambdaImageCodeTrigger | LambdaLayerCodeTrigger => false
  end.

(** A trigger that some constructor call returned. *)
Inductive constructed : Obj -> Prop :=
| constructed_template template_file on_template_change self :
    new_TemplateTrigger template_file on_template_change = Return self ->
    constructed self
| constructed_code cls resource_identifier stacks on_code_change self :
    new_code_trigger cls resource_identifier stacks on_code_change = Return self ->
    constructed self.

(** A callable that runs [cb] behind the validator [v]: one call of
    [validate]; on [True] one call of [cb] with the event it was given,
    on [False] a plain return. *)
Definition gated_by (v : DefinitionValidator) (cb : OnChangeCallback) (f : Callable) : Prop :=
  forall (event : option FileSystemEvent) (st : Run),
    call f event st =
    (if fst (validate v (world st)) then
       (fst (run_callback cb event (snd (validate v (world st)))),
        {| world := snd (run_callback cb event (snd (validate v (world st))));
           calls := calls st ++ [(cb, event)] |})
     else
       (Return tt, {| world := snd (validate v (world st)); calls := calls st |})).

End Triggers.

(** Two paths one edit apart: a character replaced, inserted or
    removed. *)
Fixpoint one_edit (p q : string) : bool :=
  match p, q with
  | String a p', String b q' =>
    if Ascii.eqb a b then one_edit p' q'
    else String.eqb p' q' || String.eqb p q' || String.eqb p' q
  | EmptyString, String _ q' => String.eqb q' ""
  | String _ p', EmptyString => String.eqb p' ""
  | EmptyString, EmptyString => false
  end.

(** The subject is the path, or the path and one newline. *)
Definition path_or_newline (p q : string) : bool :=
  String.eqb q p || String.eqb q (p ++ String newline "").

(** A path that names something: absolute, or with a component other
    than [.].  All paths but the empty one and its spellings [.], [./]. *)
Definition names_entry (p : string) : bool :=
  is_absolute p || existsb is_name (split_sep p).

(** ** Handling a run of events *)

Section Sequences.
Context `{Collaborators}.

(** The events of a run go through [dispatch] one after the other; an
    exception ends the run. *)
Fixpoint dispatch_all (h : EventHandler) (events : list FileSystemEvent) : M unit :=
  match events with
  | [] => ret tt
  | event :: rest => dispatch h event ;;; dispatch_all h rest
  end.

(** The handler record the single-file factory builds for a resolved
    path, with a callable in its slot. *)
Definition single_file_event_handler (file_path : Path) (f : Callable) : EventHandler :=
  {| matching :=
       RegexMatching
         [{| re_items :=
               AT_BEGINNING :: (literals (path_str file_path) ++ [AT_END])%list;
             re_ignorecase := false |}] [];
     ignore_directories := true;
     case_sensitive := true;
     on_any_event := f |}.

(** The path handler of a trigger on a code directory. *)
Definition code_dir_path_handler (code_uri : string) (cb : OnChangeCallback) : PathHandler :=
  {| path := resolve (Path_of code_uri);
     event_handler :=
       {| matching := PatternMatching ["*"] [];
          ignore_directories := false;
          case_sensitive := true;
          on_any_event := callback cb |};
     recursive := true; static_folder := true;
     self_create := Some (callback cb);
     self_delete := Some (callback cb) |}.

(** The path handler of a trigger on a single file. *)
Definition single_file_path_handler (file : string) (self : Obj) : PathHandler :=
  {| path := parent (resolve (Path_of file));
     event_handler :=
       single_file_event_handler (resolve (Path_of file)) (bound__validator_wrapper self);
     recursive := false; static_folder := false;
     self_create := None; self_delete := None |}.

End Sequences.

(** ** A small instance of the collaborators

    Stacks that list resources, functions and layers by name; paths as
    strings under the working directory [/work] with no links; a world
    that lists the answers the validators will give. *)

Module Demo.

Record stack_record : Type := {
  resources : gmap string (gmap string PyVal);
  functions : gmap string Function.t;
  layers : gmap string LayerVersion.t
}.

Fixpoint first_of {A} (look : stack_record -> option A) (stacks : list stack_record) : option A :=
  match stacks with
  | [] => None
  | s :: r => match look s with Some x => Some x | None => first_of look r end
  end.

Fixpoint join (parts : list string) : string :=
  match parts with
  | [] => ""
  | x :: r => "/" ++ x ++ join r
  end.

Definition render (parts : list string) : string :=
  match parts with [] => "/" | _ => join parts end.

(** Components of the absolute form, with [..] stepping back. *)
Definition normal_parts (s : string) : list string :=
  fold_left (fun acc x => if String.eqb x ".." then removelast acc else (acc ++ [x])%list)
    (List.filter is_name (split_sep (if is_absolute s then s else "/work/" ++ s))) [].

Definition fs_resolve (s : string) : string := render (normal_parts s).
Definition fs_parent (s : string) : string := render (removelast (normal_parts s)).

Definition oracle (v : string) (w : list bool) : bool * list bool :=
  match w with
  | b :: w' => (b, w')
  | [] => (false, [])
  end.

#[export] Instance collaborators : Collaborators := {|
  Stack := stack_record;
  ResourceIdentifier := string;
  OnChangeCallback := string;
  Path := string;
  DefinitionValidator := string;
  World := list bool;
  get_resource_by_id := fun stacks id => first_of (fun s => resources s !! id) stacks;
  identifier_str := fun id => id;
  SamFunctionProvider_get := fun stacks name => first_of (fun s => functions s !! name) stacks;
  SamLayerProvider_get := fun stacks name => first_of (fun s => layers s !! name) stacks;
  Path_of := fun s => s;
  resolve := fs_resolve;
  parent := fs_parent;
  path_str := fun p => p;
  new_DefinitionValidator := fun p => p;
  validate := oracle;
  run_callback := fun _ _ w => (Return tt, w);
  PureWindowsPath_match := fun _ _ => Return false
|}.

(** A REST API whose [DefinitionUri] is there and empty. *)
Definition api_empty : gmap string PyVal :=
  <["Properties" := PDict {["DefinitionUri" := PStr ""]}]>
    {["Type" := PStr "AWS::Serverless::Api"]}.

(** A function [Fn1] with code in [./src], an image function [Img]
    without a build context, a layer [Layer1], a resource [Orphan] that
    no provider knows, and REST APIs with and without a definition. *)
Definition stack : stack_record := {|
  resources :=
    <["Fn1" := {["Type" := PStr "AWS::Serverless::Function"]}]>
    (<["Img" := {["Type" := PStr "AWS::Serverless::Function"]}]>
    (<["Layer1" := {["Type" := PStr "AWS::Serverless::LayerVersion"]}]>
    (<["Orphan" := {["Type" := PStr "AWS::Serverless::Function"]}]>
    (<["Api1" := <["Properties" := PDict {["DefinitionUri" := PStr "api.yaml"]}]>
                   {["Type" := PStr "AWS::Serverless::Api"]}]>
    (<["ApiEmpty" := api_empty]>
    (<["ApiBare" := {["Type" := PStr "AWS::Serverless::Api"]}]> ∅))))));
  functions :=
    <["Fn1" := {| Function.codeuri := Some "./src"; Function.metadata := None |}]>
    (<["Img" := {| Function.codeuri := None;
                   Function.metadata := Some {["Dockerfile" := "Dockerfile"]} |}]> ∅);
  layers :=
    <["Layer1" := {| LayerVersion.codeuri := Some "layer/" |}]> ∅
|}.

Definition stacks : list stack_record := [stack].

Definition modified (p : string) (is_dir : bool) : FileSystemEvent :=
  {| event_type := EVENT_TYPE_MODIFIED; src_path := p; dest_path := None;
     is_directory := is_dir |}.

(** The triggers the constructors build on that stack. *)
Definition template_trigger : Obj :=
  with_attr "_validator" (AValidator "template.yaml")
    (with_attr "_on_template_change" (ACallback "cb")
       (with_attr "_template_file" (AStr "template.yaml") (fresh TemplateTrigger))).

Definition zip_trigger : Obj :=
  with_attr "_code_uri" (AStr "./src")
    (with_attr "_function"
       (AFunction {| Function.codeuri := Some "./src"; Function.metadata := None |})
       (with_attr "_on_code_change" (ACallback "cb")
          (with_attr "_resource"
             (AResource {["Type" := PStr "AWS::Serverless::Function"]})
             (fresh LambdaZipCodeTrigger)))).

Definition layer_trigger : Obj :=
  with_attr "_code_uri" (AStr "layer/")
    (with_attr "_layer" (ALayer {| LayerVersion.codeuri := Some "layer/" |})
       (with_attr "_on_code_change" (ACallback "cb")
          (with_attr "_resource"
             (AResource {["Type" := PStr "AWS::Serverless::LayerVersion"]})
             (fresh LambdaLayerCodeTrigger)))).

Definition api_trigger : Obj :=
  with_attr "_validator" (AValidator "api.yaml")
    (with_attr "_definition_file" (AVal (PStr "api.yaml"))
       (with_attr "_on_code_change" (ACallback "cb")
          (with_attr "_resource"
             (AResource
                (<["Properties" := PDict {["DefinitionUri" := PStr "api.yaml"]}]>
                   {["Type" := PStr "AWS::Serverless::Api"]}))
             (fresh APIGatewayCodeTrigger)))).

End Demo.

(** More resources for the instance: an empty record, REST APIs whose
    [Properties] is null and whose [DefinitionUri] is a bucket location,
    and a layer without code. *)
Module DemoEdge.

Definition api_null : gmap string PyVal :=
  <["Properties" := PNone]> {["Type" := PStr "AWS::Serverless::Api"]}.

Definition api_bucket : gmap string PyVal :=
  <["Properties" :=
      PDict {["DefinitionUri" :=
                PDict (<["Bucket" := PStr "b"]> {["Key" := PStr "k"]})]}]>
    {["Type" := PStr "AWS::Serverless::Api"]}.

Definition stack : Demo.stack_record := {|
  Demo.resources :=
    <["Empty" := ∅]>
    (<["ApiNull" := api_null]>
    (<["ApiBucket" := api_bucket]>
    (<["Bare" := {["Type" := PStr "AWS::Serverless::LayerVersion"]}]> ∅)));
  Demo.functions := ∅;
  Demo.layers := <["Bare" := {| LayerVersion.codeuri := None |}]> ∅
|}.

Definition stacks : list Demo.stack_record := [stack; Demo.stack].

Definition moved (src dest : string) (is_dir : bool) : FileSystemEvent :=
  {| event_type := EVENT_TYPE_MOVED; src_path := src; dest_path := Some dest;
     is_directory := is_dir |}.

(** A run about to start, whose next validation succeeds. *)
Definition start : @Run Demo.collaborators := @Build_Run Demo.collaborators [true] [].

End DemoEdge.

(** * Facts *)

(** ** Strings and regular expressions *)

Example escape_parent_file : escape "/parent/file" = "\/parent\/file".
Proof. reflexivity. Qed.

Example dot_is_a_wildcard :
  obind (re_compile "^/a.b$" false) (fun r => Return (re_match r "/aXb")) = Return true.
Proof. reflexivity. Qed.

Lemma append_assoc (a b c : string) : (a ++ b) ++ c = a ++ (b ++ c).
Proof. induction a as [|x a IH]; simpl; [reflexivity | now rewrite IH]. Qed.

Lemma append_nil_r (a : string) : a ++ "" = a.
Proof. induction a as [|x a IH]; simpl; [reflexivity | now rewrite IH]. Qed.

Lemma append_length (a b : string) :
  String.length (a ++ b) = String.length a + String.length b.
Proof. induction a as [|x a IH]; simpl; [reflexivity | now rewrite IH]. Qed.

Lemma lower_length (s : string) : String.length (lower s) = String.length s.
Proof. induction s as [|c s IH]; simpl; [reflexivity | now rewrite IH]. Qed.

Lemma re_parse_escape_char (c : ascii) (rest : string) :
  re_parse (escape_char c ++ rest) = cons (LITERAL c) <$> re_parse rest.
Proof.
  destruct c as [[] [] [] [] [] [] [] []]; reflexivity.
Qed.

Lemma re_parse_escape (p rest : string) :
  re_parse (escape p ++ rest) = app (literals p) <$> re_parse rest.
Proof.
  induction p as [|c p IH]; simpl.
  - destruct (re_parse rest); reflexivity.
  - rewrite append_assoc, re_parse_escape_char, IH.
    destruct (re_parse rest); reflexivity.
Qed.

(** An escaped path between the two anchors always compiles, to the
    anchors around its literal characters. *)
Lemma re_compile_anchored_escape (p : string) (ic : bool) :
  re_compile ("^" ++ escape p ++ "$") ic =
  Return {| re_items := AT_BEGINNING :: (literals p ++ [AT_END])%list;
            re_ignorecase := ic |}.
Proof.
  unfold re_compile.
  change ("^" ++ escape p ++ "$") with (String "^" (escape p ++ "$")).
  change (re_parse (String "^" (escape p ++ "$")))
    with (cons AT_BEGINNING <$> re_parse (escape p ++ "$")).
  rewrite re_parse_escape. reflexivity.
Qed.

Lemma match_literals (p : string) (r : list Item) (b : bool) (q : string) :
  r <> [] ->
  match_items false (literals p ++ r) b q = true <->
  exists q', q = p ++ q' /\
    match_items false r (match p with EmptyString => b | _ => false end) q' = true.
Proof.
  intros Hr. revert b q. induction p as [|c p IH]; intros b q; simpl.
  - split; [intros Hm; exists q; auto | intros (q' & -> & Hm); exact Hm].
  - destruct q as [|d q]; simpl.
    + split; [discriminate | intros (q' & Hq & _); discriminate].
    + rewrite andb_true_iff, IH. unfold char_eq. rewrite Ascii.eqb_eq. split.
      * intros (-> & q' & -> & Hm). exists q'. split; [reflexivity|].
        destruct p; destruct r; try congruence; exact Hm.
      * intros (q' & Hq & Hm). injection Hq as -> ->. split; [reflexivity|].
        exists q'. split; [reflexivity|].
        destruct p; destruct r; try congruence; exact Hm.
Qed.

Lemma at_end_spec (rest : string) :
  at_end rest = true <-> rest = "" \/ rest = String newline "".
Proof.
  unfold at_end. rewrite orb_true_iff, !String.eqb_eq. reflexivity.
Qed.

(** What the compiled single-file pattern accepts. *)
Lemma match_anchored_literals (p q : string) :
  match_items false (AT_BEGINNING :: (literals p ++ [AT_END])%list) true q =
  path_or_newline p q.
Proof.
  apply eq_true_iff_eq. simpl.
  rewrite match_literals by discriminate.
  unfold path_or_newline. rewrite orb_true_iff, !String.eqb_eq. split.
  - intros (q' & -> & Hm). simpl in Hm. rewrite andb_true_r in Hm.
    apply at_end_spec in Hm as [-> | ->]; [left; apply append_nil_r | right; reflexivity].
  - intros [-> | ->].
    + exists "". split; [symmetry; apply append_nil_r | reflexivity].
    + exists (String newline ""). split; reflexivity.
Qed.

(** ** Names and paths *)

Lemma fnmatchcase_star (name : string) : fnmatchcase name "*" = true.
Proof.
  unfold fnmatchcase. simpl. induction name as [|c name IH]; [reflexivity|].
  simpl in *. exact IH.
Qed.

Example match_relative : PurePosixPath_match (parse_parts "/a/b.py") "*.py" = Return true.
Proof. reflexivity. Qed.
Example match_case : PurePosixPath_match (parse_parts "/a/B.PY") "*.py" = Return false.
Proof. reflexivity. Qed.
Example match_anchored : PurePosixPath_match (parse_parts "/a/b.py") "/*.py" = Return false.
Proof. reflexivity. Qed.
Example match_dot : PurePosixPath_match (parse_parts "./") "*" = Return false.
Proof. reflexivity. Qed.

(** The pattern [*] accepts a path exactly when the path has a part. *)
Lemma PurePosixPath_match_star (self : PurePosixPath) :
  PurePosixPath_match self "*" =
  Return (match _parts self with [] => false | _ :: _ => true end).
Proof.
  unfold PurePosixPath_match. simpl.
  destruct (_parts self) as [|x parts] eqn:E; [reflexivity|].
  simpl. destruct (rev parts ++ [x])%list as [|y l] eqn:E'.
  - destruct (rev parts); discriminate.
  - cbn [combine forallb]. rewrite fnmatchcase_star.
    destruct l; reflexivity.
Qed.

Lemma names_entry_parts (p : string) :
  names_entry p = true -> _parts (parse_parts p) <> [].
Proof.
  unfold names_entry, parse_parts, splitroot, is_absolute.
  destruct p as [|c p]; [discriminate|].
  destruct (Ascii.eqb c sep) eqn:Ec.
  - intros _. destruct (Nat.eqb _ 2); simpl; discriminate.
  - rewrite orb_false_l. intros Hex.
    apply existsb_exists in Hex as (x & Hin & Hx).
    cbn [String.eqb _parts]. intros Hnil.
    assert (Hf : In x (List.filter is_name (split_sep (String c p)))).
    { apply filter_In. split; assumption. }
    rewrite Hnil in Hf. exact Hf.
Qed.

(** ** The two factories *)

Section HandlerFacts.
Context `{Collaborators}.

(** The single-file factory never raises: its pattern always compiles. *)
Lemma get_single_file_path_handler_returns (file_path_str : string) :
  get_single_file_path_handler file_path_str =
  Return
    {| path := parent (resolve (Path_of file_path_str));
       event_handler :=
         {| matching :=
              RegexMatching
                [{| re_items :=
                      AT_BEGINNING ::
                      (literals (path_str (resolve (Path_of file_path_str))) ++ [AT_END])%list;
                    re_ignorecase := false |}] [];
            ignore_directories := true;
            case_sensitive := true;
            on_any_event := FileSystemEventHandler_on_any_event |};
       recursive := false; static_folder := false;
       self_create := None; self_delete := None |}.
Proof.
  unfold get_single_file_path_handler, RegexMatchingEventHandler, single_file_regex.
  cbn [mapM negb]. rewrite re_compile_anchored_escape. reflexivity.
Qed.

(** The rule of the single-file handler accepts the resolved path and
    the resolved path followed by one newline, and nothing else. *)
Lemma single_file_rule (file_path_str : string) (h : PathHandler) (q : string) :
  get_single_file_path_handler file_path_str = Return h ->
  matches (event_handler h) [q] =
  Return (path_or_newline (path_str (resolve (Path_of file_path_str))) q).
Proof.
  rewrite get_single_file_path_handler_returns. intros [= <-].
  unfold matches, any_regex, re_match.
  cbn [event_handler matching existsb re_items re_ignorecase].
  rewrite match_anchored_literals, !orb_false_r. reflexivity.
Qed.

Lemma single_file_rule_exact (file_path_str : string) (h : PathHandler) :
  get_single_file_path_handler file_path_str = Return h ->
  matches (event_handler h) [path_str (resolve (Path_of file_path_str))] = Return true.
Proof.
  intros Hh. rewrite (single_file_rule _ _ _ Hh). unfold path_or_newline.
  now rewrite String.eqb_refl.
Qed.

(** A path of the same length that is not the resolved path is
    rejected: no single replaced character goes through. *)
Lemma single_file_rule_same_length (file_path_str : string) (h : PathHandler) (q : string) :
  get_single_file_path_handler file_path_str = Return h ->
  q <> path_str (resolve (Path_of file_path_str)) ->
  String.length q = String.length (path_str (resolve (Path_of file_path_str))) ->
  matches (event_handler h) [q] = Return false.
Proof.
  intros Hh Hne Hlen. rewrite (single_file_rule _ _ _ Hh). f_equal.
  unfold path_or_newline. apply orb_false_iff. split.
  - apply String.eqb_neq. exact Hne.
  - apply String.eqb_neq. intros ->. rewrite append_length in Hlen. simpl in Hlen. lia.
Qed.

Lemma _match_path_star (p : string) :
  _match_path p ["*"] [] true =
  Return (match _parts (parse_parts p) with [] => false | _ :: _ => true end).
Proof.
  unfold _match_path. cbn [existsb any_pattern obind].
  rewrite PurePosixPath_match_star. cbn [obind].
  destruct (_parts (parse_parts p)); reflexivity.
Qed.

Lemma match_any_paths_star (paths : list string) (p : string) :
  names_entry p = true ->
  match_any_paths (paths ++ [p]) ["*"] [] true = Return true.
Proof.
  intros Hp. induction paths as [|x paths IH]; cbn [app match_any_paths].
  - rewrite _match_path_star. apply names_entry_parts in Hp.
    destruct (_parts (parse_parts p)); [congruence | reflexivity].
  - rewrite _match_path_star. cbn [obind].
    destruct (_parts (parse_parts x)); [exact IH | reflexivity].
Qed.

Example pattern_matching_keeps_case :
  _match_path "/work/src/App.py" ["*.py"] [] true = Return true /\
  _match_path "/work/src/App.PY" ["*.py"] [] true = Return false.
Proof. split; reflexivity. Qed.

End HandlerFacts.

(** ** The match rules *)

Lemma one_edit_append (p : string) (c : ascii) : one_edit p (p ++ String c "") = true.
Proof.
  induction p as [|a p IH]; simpl; [reflexivity|].
  now rewrite Ascii.eqb_refl.
Qed.

Lemma path_or_newline_newline (p : string) :
  path_or_newline p (p ++ String newline "") = true.
Proof.
  unfold path_or_newline. rewrite (String.eqb_refl (p ++ String newline "")).
  apply orb_true_r.
Qed.

Lemma path_or_newline_case (p q : string) :
  q <> p -> lower q = lower p -> path_or_newline p q = false.
Proof.
  intros Hne Hlow. unfold path_or_newline. apply orb_false_iff. split.
  - apply String.eqb_neq. exact Hne.
  - apply String.eqb_neq. intros ->.
    apply (f_equal String.length) in Hlow.
    rewrite !lower_length, append_length in Hlow. simpl in Hlow. lia.
Qed.

Section MatchRules.
Context `{Collaborators}.

(** C3.  For every file path string the single-file factory returns a
    handler on the parent directory of the resolved path, not recursive.
    The special characters of the path are escaped, and the rule accepts
    a path when it is the resolved path or the resolved path followed by
    one newline, and only then.  So the rule is not exact: [$] also
    holds before a final newline, and a path one character away from the
    resolved one goes through. *)
Theorem single_file_handler_accepts_newline_suffix (file_path_str : string) :
  let p := path_str (resolve (Path_of file_path_str)) in
  exists h,
    get_single_file_path_handler file_path_str = Return h /\
    path h = parent (resolve (Path_of file_path_str)) /\
    recursive h = false /\
    (forall q, matches (event_handler h) [q] = Return (path_or_newline p q)) /\
    one_edit p (p ++ String newline "") = true /\
    matches (event_handler h) [p ++ String newline ""] = Return true.
Proof.
  intros p. eexists. split; [apply get_single_file_path_handler_returns|].
  assert (Hr : forall q,
    matches (event_handler
      {| path := parent (resolve (Path_of file_path_str));
         event_handler :=
           {| matching :=
                RegexMatching
                  [{| re_items := AT_BEGINNING :: (literals p ++ [AT_END])%list;
                      re_ignorecase := false |}] [];
              ignore_directories := true;
              case_sensitive := true;
              on_any_event := FileSystemEventHandler_on_any_event |};
         recursive := false; static_folder := false;
         self_create := None; self_delete := None |}) [q] =
    Return (path_or_newline p q)).
  { intros q. apply (single_file_rule file_path_str).
    apply get_single_file_path_handler_returns. }
  repeat split.
  - exact Hr.
  - apply one_edit_append.
  - rewrite Hr. now rewrite path_or_newline_newline.
Qed.

(** C4.  For every directory path string the directory factory returns
    a handler on the resolved directory, recursive, marked as a static
    folder, whose rule accepts every path that names an entry, be it
    absolute or relative. *)
Theorem dir_handler_accepts_any_entry (dir_path_str p : string) :
  names_entry p = true ->
  path (get_dir_path_handler dir_path_str) = resolve (Path_of dir_path_str) /\
  recursive (get_dir_path_handler dir_path_str) = true /\
  static_folder (get_dir_path_handler dir_path_str) = true /\
  matches (event_handler (get_dir_path_handler dir_path_str)) [p] = Return true.
Proof.
  intros Hp. repeat split.
  unfold matches. cbn [get_dir_path_handler event_handler PatternMatchingEventHandler
                       matching case_sensitive].
  apply (match_any_paths_star [] p Hp).
Qed.

(** C10.  The single-file rule forwards no event on a directory; the
    directory rule forwards events on directories and on files alike;
    both handlers are case sensitive, and the single-file rule rejects
    a path that differs from the resolved one in letter case only. *)
Theorem match_rules_directories_and_case :
  (forall file_path_str h event,
     get_single_file_path_handler file_path_str = Return h ->
     is_directory event = true ->
     forwards (event_handler h) event = Return false) /\
  (forall dir_path_str event,
     names_entry (src_path event) = true ->
     ignore_directories (event_handler (get_dir_path_handler dir_path_str)) = false /\
     forwards (event_handler (get_dir_path_handler dir_path_str)) event = Return true) /\
  (forall file_path_str h q,
     get_single_file_path_handler file_path_str = Return h ->
     q <> path_str (resolve (Path_of file_path_str)) ->
     lower q = lower (path_str (resolve (Path_of file_path_str))) ->
     case_sensitive (event_handler h) = true /\
     matches (event_handler h) [q] = Return false) /\
  (forall dir_path_str,
     case_sensitive (event_handler (get_dir_path_handler dir_path_str)) = true).
Proof.
  split; [|split; [|split]].
  - intros s h event Hh Hdir.
    rewrite get_single_file_path_handler_returns in Hh. injection Hh as <-.
    unfold forwards. cbn [event_handler ignore_directories]. now rewrite Hdir.
  - intros s event Hsrc. split; [reflexivity|].
    unfold forwards, matches, event_paths.
    cbn [get_dir_path_handler event_handler PatternMatchingEventHandler
         matching case_sensitive ignore_directories andb].
    destruct (String.eqb (src_path event) "") eqn:Es.
    + apply String.eqb_eq in Es. rewrite Es in Hsrc. discriminate.
    + apply match_any_paths_star. exact Hsrc.
  - intros s h q Hh Hne Hlow. split.
    + rewrite get_single_file_path_handler_returns in Hh. now injection Hh as <-.
    + rewrite (single_file_rule _ _ _ Hh). f_equal. now apply path_or_newline_case.
  - reflexivity.
Qed.

End MatchRules.

(** ** Running initialisers *)

Section MonadFacts.
Context {S : Type}.

Lemma bind_ret {A B} (a : A) (f : A -> ST S B) (s : S) : bind (ret a) f s = f a s.
Proof. reflexivity. Qed.

Lemma bind_raise {A B} (e : exn) (f : A -> ST S B) (s : S) :
  bind (raise e) f s = (Raise e, s).
Proof. reflexivity. Qed.

Lemma bind_lift {A B} (o : Outcome A) (f : A -> ST S B) (s : S) :
  bind (lift o) f s = match o with Return a => f a s | Raise e => (Raise e, s) end.
Proof. unfold bind, lift. destruct o; reflexivity. Qed.

Lemma bind_modify {B} (g : S -> S) (f : unit -> ST S B) (s : S) :
  bind (modify g) f s = f tt (g s).
Proof. reflexivity. Qed.

Lemma bind_get_state {B} (f : S -> ST S B) (s : S) : bind get_state f s = f s s.
Proof. reflexivity. Qed.

Lemma bind_bind {A B C} (m : ST S A) (f : A -> ST S B) (g : B -> ST S C) (s : S) :
  bind (bind m f) g s = bind m (fun a => bind (f a) g) s.
Proof. unfold bind. destruct (m s) as [[a|e] s']; reflexivity. Qed.

End MonadFacts.

Section ConstructionFacts.
Context `{Collaborators}.

Lemma getattr_with_attr (name : string) (a : Attr) (self : Obj) :
  getattr (with_attr name a self) name = Return a.
Proof. unfold getattr, with_attr. cbn [__dict__]. now rewrite lookup_insert_eq. Qed.

Lemma getattr_with_attr_ne (name name' : string) (a : Attr) (self : Obj) :
  name <> name' ->
  getattr (with_attr name a self) name' = getattr self name'.
Proof.
  intros Hne. unfold getattr, with_attr. cbn [__dict__].
  now rewrite lookup_insert_ne.
Qed.

Lemma class_with_attr (name : string) (a : Attr) (self : Obj) :
  __class__ (with_attr name a self) = __class__ self.
Proof. reflexivity. Qed.

Lemma bind_setattr {B} (name : string) (a : Attr) (f : unit -> Init B) (self : Obj) :
  bind (setattr name a) f self = f tt (with_attr name a self).
Proof. reflexivity. Qed.

Lemma bind_self_attr {B} (name : string) (f : Attr -> Init B) (self : Obj) :
  bind (self_attr name) f self =
  match getattr self name with Return a => f a self | Raise e => (Raise e, self) end.
Proof. unfold bind, self_attr. destruct (getattr self name); reflexivity. Qed.

(** The base initialiser: it raises before it assigns anything, or it
    stores the resource and the callback. *)
Lemma CodeResourceTrigger___init___run rid stacks cb (self : Obj) :
  CodeResourceTrigger___init__ rid stacks cb self =
  match resource_found stacks rid with
  | Some resource =>
    (Return tt,
     with_attr "_on_code_change" (ACallback cb)
       (with_attr "_resource" (AResource resource) self))
  | None => (Raise ResourceNotFound, self)
  end.
Proof.
  unfold CodeResourceTrigger___init__, resource_found.
  destruct (get_resource_by_id stacks rid) as [r|]; [|reflexivity].
  destruct (dict_truthy r); reflexivity.
Qed.

(** The strategy of each function trigger is the code location of the
    specification, read off the function the instance holds. *)
Lemma _get_code_uri_run (self : Obj) (function : Function.t) :
  is_function_trigger (__class__ self) = true ->
  getattr self "_function" = Return (AFunction function) ->
  _get_code_uri self = (Return (spec_code_location (__class__ self) function), self).
Proof.
  intros Hcls Hf. unfold _get_code_uri. rewrite bind_get_state.
  destruct (__class__ self) eqn:Ec; try discriminate;
    rewrite bind_lift, Hf; cbn [obind as_function spec_code_location].
  - reflexivity.
  - destruct (Function.metadata function) as [md|]; [|reflexivity].
    unfold dict_truthy. rewrite negb_involutive.
    destruct (bool_decide (md = ∅)) eqn:Ed; [|reflexivity].
    apply bool_decide_eq_true in Ed. subst md. reflexivity.
Qed.

Lemma LambdaFunctionCodeTrigger___init___run rid stacks cb (self : Obj) :
  is_function_trigger (__class__ self) = true ->
  LambdaFunctionCodeTrigger___init__ rid stacks cb self =
  match resource_found stacks rid with
  | None => (Raise ResourceNotFound, self)
  | Some resource =>
    let self1 := with_attr "_on_code_change" (ACallback cb)
                   (with_attr "_resource" (AResource resource) self) in
    match SamFunctionProvider_get stacks (identifier_str rid) with
    | None => (Raise FunctionNotFound, self1)
    | Some function =>
      let self2 := with_attr "_function" (AFunction function) self1 in
      let code_uri := spec_code_location (__class__ self) function in
      if str_truthy code_uri
      then (Return tt, with_attr "_code_uri" (AStr (default "" code_uri)) self2)
      else (Raise MissingCodeUri, self2)
    end
  end.
Proof.
  intros Hcls. unfold LambdaFunctionCodeTrigger___init__.
  unfold bind at 1. rewrite CodeResourceTrigger___init___run.
  destruct (resource_found stacks rid) as [r|]; [|reflexivity].
  destruct (SamFunctionProvider_get stacks (identifier_str rid)) as [f|]; [|reflexivity].
  rewrite bind_setattr. unfold bind at 1.
  rewrite (_get_code_uri_run _ f) by (try apply getattr_with_attr; exact Hcls).
  cbn [with_attr __class__].
  destruct (str_truthy _); reflexivity.
Qed.

Lemma LambdaLayerCodeTrigger___init___run rid stacks cb (self : Obj) :
  LambdaLayerCodeTrigger___init__ rid stacks cb self =
  match resource_found stacks rid with
  | None => (Raise ResourceNotFound, self)
  | Some resource =>
    let self1 := with_attr "_on_code_change" (ACallback cb)
                   (with_attr "_resource" (AResource resource) self) in
    match SamLayerProvider_get stacks (identifier_str rid) with
    | None => (Raise ResourceNotFound, self1)
    | Some layer =>
      let self2 := with_attr "_layer" (ALayer layer) self1 in
      if str_truthy (LayerVersion.codeuri layer)
      then (Return tt,
            with_attr "_code_uri" (AStr (default "" (LayerVersion.codeuri layer))) self2)
      else (Raise MissingCodeUri, self2)
    end
  end.
Proof.
  unfold LambdaLayerCodeTrigger___init__.
  unfold bind at 1. rewrite CodeResourceTrigger___init___run.
  destruct (resource_found stacks rid) as [r|]; [|reflexivity].
  destruct (SamLayerProvider_get stacks (identifier_str rid)) as [l|]; [|reflexivity].
  rewrite bind_setattr, bind_self_attr, getattr_with_attr, bind_lift.
  cbn [as_layer]. destruct (str_truthy _); reflexivity.
Qed.

Lemma TemplateTrigger___init___run template_file cb (self : Obj) :
  TemplateTrigger___init__ template_file cb self =
  (Return tt,
   with_attr "_validator" (AValidator (new_DefinitionValidator (Path_of template_file)))
     (with_attr "_on_template_change" (ACallback cb)
        (with_attr "_template_file" (AStr template_file) self))).
Proof.
  unfold TemplateTrigger___init__.
  rewrite !bind_setattr, bind_self_attr.
  rewrite getattr_with_attr_ne by discriminate. rewrite getattr_with_attr.
  rewrite bind_lift. reflexivity.
Qed.

Lemma APIGatewayCodeTrigger___init___run rid stacks cb (self : Obj) :
  APIGatewayCodeTrigger___init__ rid stacks cb self =
  match resource_found stacks rid with
  | None => (Raise ResourceNotFound, self)
  | Some resource =>
    let self1 := with_attr "_on_code_change" (ACallback cb)
                   (with_attr "_resource" (AResource resource) self) in
    match py_get (default (PDict ∅) (resource !! "Properties")) "DefinitionUri" PNone with
    | Raise e => (Raise e, self1)
    | Return definition_file =>
      if truthy definition_file then
        let self2 := with_attr "_definition_file" (AVal definition_file) self1 in
        match as_str (AVal definition_file) with
        | Return f =>
          (Return tt,
           with_attr "_validator" (AValidator (new_DefinitionValidator (Path_of f))) self2)
        | Raise e => (Raise e, self2)
        end
      else (Raise MissingDefinitionUri, self1)
    end
  end.
Proof.
  unfold APIGatewayCodeTrigger___init__.
  unfold bind at 1. rewrite CodeResourceTrigger___init___run.
  destruct (resource_found stacks rid) as [r|]; [|reflexivity].
  rewrite bind_self_attr.
  rewrite getattr_with_attr_ne by discriminate. rewrite getattr_with_attr.
  rewrite bind_lift. cbn [as_resource]. rewrite bind_lift. cbn [py_get].
  rewrite bind_lift.
  destruct (py_get _ "DefinitionUri" PNone) as [v|e]; [|reflexivity].
  destruct (truthy v); [|reflexivity]. cbn [negb].
  rewrite bind_setattr, bind_self_attr, getattr_with_attr, bind_lift.
  destruct (as_str (AVal v)); reflexivity.
Qed.

(** With [Properties] missing or a dictionary, the value read is the
    one under [DefinitionUri], or [None]. *)
Lemma py_get_DefinitionUri (resource : gmap string PyVal) :
  Properties_absent_or_dict resource = true ->
  py_get (default (PDict ∅) (resource !! "Properties")) "DefinitionUri" PNone =
  Return (default PNone (DefinitionUri_of resource)).
Proof.
  unfold Properties_absent_or_dict, DefinitionUri_of.
  destruct (resource !! "Properties") as [[]|]; try discriminate; reflexivity.
Qed.

End ConstructionFacts.

(** ** Construction and its errors *)

Section Construction.
Context `{Collaborators}.

Lemma new_code_trigger_unfold cls rid stacks cb :
  new_code_trigger cls rid stacks cb =
  match code_trigger___init__ cls rid stacks cb (fresh cls) with
  | (Return _, self) => Return self
  | (Raise e, _) => Raise e
  end.
Proof. reflexivity. Qed.

Lemma resource_found_None stacks rid :
  get_resource_by_id stacks rid = None -> resource_found stacks rid = None.
Proof. unfold resource_found. now intros ->. Qed.

(** When the resource lookup fails the initialiser raises before it has
    assigned any attribute. *)
Lemma ResourceNotFound_assigns_nothing cls rid stacks cb :
  is_code_trigger cls = true ->
  resource_found stacks rid = None ->
  code_trigger___init__ cls rid stacks cb (fresh cls) = (Raise ResourceNotFound, fresh cls).
Proof.
  intros Hcls Hr. destruct cls; try discriminate; cbn [code_trigger___init__].
  - rewrite LambdaFunctionCodeTrigger___init___run by reflexivity. now rewrite Hr.
  - rewrite LambdaFunctionCodeTrigger___init___run by reflexivity. now rewrite Hr.
  - rewrite LambdaLayerCodeTrigger___init___run. now rewrite Hr.
  - rewrite APIGatewayCodeTrigger___init___run. now rewrite Hr.
Qed.

(** When the function lookup fails the base initialiser has run: the
    instance that is dropped holds the resource and the callback, and
    neither a function nor a code location. *)
Lemma FunctionNotFound_dropped_instance cls rid stacks cb resource :
  is_function_trigger cls = true ->
  resource_found stacks rid = Some resource ->
  SamFunctionProvider_get stacks (identifier_str rid) = None ->
  code_trigger___init__ cls rid stacks cb (fresh cls) =
  (Raise FunctionNotFound,
   with_attr "_on_code_change" (ACallback cb)
     (with_attr "_resource" (AResource resource) (fresh cls))).
Proof.
  intros Hcls Hr Hf. destruct cls; try discriminate; cbn [code_trigger___init__];
    rewrite LambdaFunctionCodeTrigger___init___run by reflexivity;
    now rewrite Hr, Hf.
Qed.

Lemma getattr_fresh (cls : ClassName) (name : string) :
  getattr (fresh cls) name = Raise AttributeError.
Proof. unfold getattr, fresh. cbn [__dict__]. now rewrite lookup_empty. Qed.

(** C1, as the code has it.  Constructing any code resource trigger
    when the resource lookup returns nothing raises ResourceNotFound,
    and the initialiser raises before it has assigned any attribute.
    Constructing a function code trigger when the resource is found and
    the function provider returns nothing raises FunctionNotFound; by
    then the base initialiser has stored the resource record and the
    callback on the instance under construction, which holds neither a
    function nor a code location.  Either way the constructor call
    yields the exception and the instance is dropped. *)
Theorem construction_raises_when_not_found :
  (forall cls rid stacks cb,
     is_code_trigger cls = true ->
     get_resource_by_id stacks rid = None ->
     new_code_trigger cls rid stacks cb = Raise ResourceNotFound /\
     code_trigger___init__ cls rid stacks cb (fresh cls) =
     (Raise ResourceNotFound, fresh cls)) /\
  (forall cls rid stacks cb resource,
     is_function_trigger cls = true ->
     resource_found stacks rid = Some resource ->
     SamFunctionProvider_get stacks (identifier_str rid) = None ->
     new_code_trigger cls rid stacks cb = Raise FunctionNotFound /\
     fst (code_trigger___init__ cls rid stacks cb (fresh cls)) = Raise FunctionNotFound /\
     snd (code_trigger___init__ cls rid stacks cb (fresh cls)) =
     with_attr "_on_code_change" (ACallback cb)
       (with_attr "_resource" (AResource resource) (fresh cls)) /\
     getattr (snd (code_trigger___init__ cls rid stacks cb (fresh cls))) "_resource" =
     Return (AResource resource) /\
     getattr (snd (code_trigger___init__ cls rid stacks cb (fresh cls))) "_function" =
     Raise AttributeError /\
     getattr (snd (code_trigger___init__ cls rid stacks cb (fresh cls))) "_code_uri" =
     Raise AttributeError).
Proof.
  split.
  - intros cls rid stacks cb Hcls Hr.
    assert (Hinit : code_trigger___init__ cls rid stacks cb (fresh cls) =
                    (Raise ResourceNotFound, fresh cls))
      by (apply ResourceNotFound_assigns_nothing; auto using resource_found_None).
    split; [|exact Hinit].
    rewrite new_code_trigger_unfold. now rewrite Hinit.
  - intros cls rid stacks cb resource Hcls Hr Hf.
    pose proof (FunctionNotFound_dropped_instance cls rid stacks cb resource Hcls Hr Hf)
      as Hinit.
    split; [rewrite new_code_trigger_unfold; now rewrite Hinit|].
    rewrite Hinit. cbn [fst snd].
    split; [reflexivity|]. split; [reflexivity|]. split; [|split].
    + rewrite getattr_with_attr_ne by discriminate. apply getattr_with_attr.
    + rewrite !getattr_with_attr_ne by discriminate. apply getattr_fresh.
    + rewrite !getattr_with_attr_ne by discriminate. apply getattr_fresh.
Qed.

(** C5.  The strategy of the zip trigger is the [codeuri] of the
    function as it is; the strategy of the image trigger is nothing when
    the function has no metadata or the metadata has no [DockerContext],
    and the [DockerContext] entry otherwise; once the resource and the
    function are found, construction raises MissingCodeUri exactly when
    the strategy yields nothing or the empty string. *)
Theorem code_location_and_MissingCodeUri :
  (forall self function,
     __class__ self = LambdaZipCodeTrigger ->
     getattr self "_function" = Return (AFunction function) ->
     _get_code_uri self = (Return (Function.codeuri function), self)) /\
  (forall self function,
     __class__ self = LambdaImageCodeTrigger ->
     getattr self "_function" = Return (AFunction function) ->
     _get_code_uri self =
     (Return (match Function.metadata function with
              | Some metadata => metadata !! "DockerContext"
              | None => None
              end), self)) /\
  (forall cls rid stacks cb resource function,
     is_function_trigger cls = true ->
     resource_found stacks rid = Some resource ->
     SamFunctionProvider_get stacks (identifier_str rid) = Some function ->
     (new_code_trigger cls rid stacks cb = Raise MissingCodeUri <->
      str_truthy (spec_code_location cls function) = false)).
Proof.
  split; [|split].
  - intros self f Hc Hf. rewrite (_get_code_uri_run self f); rewrite ?Hc; auto.
  - intros self f Hc Hf. rewrite (_get_code_uri_run self f); rewrite ?Hc; auto.
  - intros cls rid stacks cb r f Hcls Hr Hf.
    rewrite new_code_trigger_unfold.
    assert (Hinit : code_trigger___init__ cls rid stacks cb (fresh cls) =
                    LambdaFunctionCodeTrigger___init__ rid stacks cb (fresh cls))
      by (destruct cls; try discriminate; reflexivity).
    rewrite Hinit, LambdaFunctionCodeTrigger___init___run by exact Hcls.
    rewrite Hr, Hf. cbn [fresh __class__].
    destruct (str_truthy (spec_code_location cls f)); split; try discriminate; reflexivity.
Qed.

(** C7.  Constructing a layer trigger raises ResourceNotFound when the
    resource is found and the layer provider returns nothing, and
    MissingCodeUri when the layer has no [codeuri] or an empty one. *)
Theorem layer_construction_errors :
  (forall rid stacks cb resource,
     resource_found stacks rid = Some resource ->
     SamLayerProvider_get stacks (identifier_str rid) = None ->
     new_code_trigger LambdaLayerCodeTrigger rid stacks cb = Raise ResourceNotFound) /\
  (forall rid stacks cb resource layer,
     resource_found stacks rid = Some resource ->
     SamLayerProvider_get stacks (identifier_str rid) = Some layer ->
     str_truthy (LayerVersion.codeuri layer) = false ->
     new_code_trigger LambdaLayerCodeTrigger rid stacks cb = Raise MissingCodeUri).
Proof.
  split.
  - intros rid stacks cb r Hr Hl. rewrite new_code_trigger_unfold.
    cbn [code_trigger___init__]. rewrite LambdaLayerCodeTrigger___init___run.
    now rewrite Hr, Hl.
  - intros rid stacks cb r l Hr Hl Hc. rewrite new_code_trigger_unfold.
    cbn [code_trigger___init__]. rewrite LambdaLayerCodeTrigger___init___run.
    now rewrite Hr, Hl, Hc.
Qed.

(** C8, as the code has it.  With the resource found and its
    [Properties] missing or a dictionary, constructing an API trigger
    reads [DefinitionUri] inside [Properties]; it raises
    MissingDefinitionUri, and nothing else, when [Properties] is missing;
    it raises MissingDefinitionUri exactly when the value under
    [DefinitionUri] is missing or false in a truth test, as the empty
    string is; and a trigger it returns holds the string found there. *)
Theorem api_definition_uri rid stacks cb resource :
  resource_found stacks rid = Some resource ->
  Properties_absent_or_dict resource = true ->
  (resource !! "Properties" = None ->
   new_code_trigger APIGatewayCodeTrigger rid stacks cb = Raise MissingDefinitionUri) /\
  (new_code_trigger APIGatewayCodeTrigger rid stacks cb = Raise MissingDefinitionUri <->
   truthy (default PNone (DefinitionUri_of resource)) = false) /\
  (forall self,
     new_code_trigger APIGatewayCodeTrigger rid stacks cb = Return self ->
     exists f,
       DefinitionUri_of resource = Some (PStr f) /\
       getattr self "_definition_file" = Return (AVal (PStr f)) /\
       getattr self "_validator" =
       Return (AValidator (new_DefinitionValidator (Path_of f)))).
Proof.
  intros Hr Hp. rewrite new_code_trigger_unfold. cbn [code_trigger___init__].
  rewrite APIGatewayCodeTrigger___init___run, Hr. cbn zeta.
  rewrite (py_get_DefinitionUri _ Hp).
  split; [|split].
  - intros Hnone. unfold DefinitionUri_of. now rewrite Hnone.
  - destruct (DefinitionUri_of resource) as [v|]; cbn [default from_option id];
      [|split; reflexivity].
    destruct (truthy v); [|split; reflexivity].
    split; [|discriminate]. destruct v; cbn [as_str]; discriminate.
  - intros self.
    destruct (DefinitionUri_of resource) as [v|]; cbn [default from_option id truthy];
      [|discriminate].
    destruct (truthy v); [|discriminate].
    destruct v; cbn [as_str]; try discriminate.
    intros [= <-]. exists s. split; [reflexivity|]. split.
    + rewrite getattr_with_attr_ne by discriminate. apply getattr_with_attr.
    + apply getattr_with_attr.
Qed.

End Construction.

(** ** Resolution and the handlers it wires *)

Section Resolution.
Context `{Collaborators}.

(** What a constructor call that returns has built. *)
Lemma new_TemplateTrigger_returns template_file cb :
  new_TemplateTrigger template_file cb =
  Return
    (with_attr "_validator" (AValidator (new_DefinitionValidator (Path_of template_file)))
       (with_attr "_on_template_change" (ACallback cb)
          (with_attr "_template_file" (AStr template_file) (fresh TemplateTrigger)))).
Proof.
  unfold new_TemplateTrigger, new. now rewrite TemplateTrigger___init___run.
Qed.

Lemma new_directory_trigger_inv cls rid stacks cb self :
  directory_based cls = true ->
  new_code_trigger cls rid stacks cb = Return self ->
  __class__ self = cls /\
  (exists code_uri, getattr self "_code_uri" = Return (AStr code_uri)) /\
  getattr self "_on_code_change" = Return (ACallback cb).
Proof.
  intros Hcls. rewrite new_code_trigger_unfold.
  destruct cls; try discriminate; cbn [code_trigger___init__].
  1,2: rewrite LambdaFunctionCodeTrigger___init___run by reflexivity;
       destruct (resource_found stacks rid); [|discriminate];
       destruct (SamFunctionProvider_get stacks (identifier_str rid)); [|discriminate];
       cbn zeta; destruct (str_truthy _); [|discriminate].
  3: rewrite LambdaLayerCodeTrigger___init___run;
     destruct (resource_found stacks rid); [|discriminate];
     destruct (SamLayerProvider_get stacks (identifier_str rid)); [|discriminate];
     cbn zeta; destruct (str_truthy _); [|discriminate].
  all: intros [= <-]; split; [reflexivity|]; split;
    [eexists; apply getattr_with_attr |
     rewrite !getattr_with_attr_ne by discriminate; apply getattr_with_attr].
Qed.

Lemma new_api_trigger_inv rid stacks cb self :
  new_code_trigger APIGatewayCodeTrigger rid stacks cb = Return self ->
  __class__ self = APIGatewayCodeTrigger /\
  (exists f v, getattr self "_definition_file" = Return (AVal (PStr f)) /\
               getattr self "_validator" = Return (AValidator v)) /\
  getattr self "_on_code_change" = Return (ACallback cb).
Proof.
  rewrite new_code_trigger_unfold. cbn [code_trigger___init__].
  rewrite APIGatewayCodeTrigger___init___run.
  destruct (resource_found stacks rid); [|discriminate]. cbn zeta.
  destruct (py_get _ "DefinitionUri" PNone) as [v|]; [|discriminate].
  destruct (truthy v); [|discriminate].
  destruct v; cbn [as_str]; try discriminate.
  intros [= <-]. split; [reflexivity|]. split.
  - eexists _, _. split.
    + rewrite getattr_with_attr_ne by discriminate. apply getattr_with_attr.
    + apply getattr_with_attr.
  - rewrite !getattr_with_attr_ne by discriminate. apply getattr_with_attr.
Qed.

(** The handlers of a trigger on a code directory. *)
Lemma directory_trigger_handlers self code_uri cb :
  directory_based (__class__ self) = true ->
  getattr self "_code_uri" = Return (AStr code_uri) ->
  getattr self "_on_code_change" = Return (ACallback cb) ->
  get_path_handlers self =
  Return
    [{| path := resolve (Path_of code_uri);
        event_handler :=
          {| matching := PatternMatching ["*"] [];
             ignore_directories := false;
             case_sensitive := true;
             on_any_event := callback cb |};
        recursive := true; static_folder := true;
        self_create := Some (callback cb);
        self_delete := Some (callback cb) |}].
Proof.
  intros Hcls Hu Hcb. unfold get_path_handlers.
  destruct (__class__ self); try discriminate;
    unfold LambdaFunctionCodeTrigger_get_path_handlers,
           LambdaLayerCodeTrigger_get_path_handlers;
    rewrite Hu, Hcb; reflexivity.
Qed.

(** The handlers of a trigger on a single file. *)
Lemma single_file_trigger_handlers self name f :
  (__class__ self = TemplateTrigger /\ name = "_template_file" \/
   __class__ self = APIGatewayCodeTrigger /\ name = "_definition_file") ->
  obind (getattr self name) as_str = Return f ->
  get_path_handlers self =
  Return
    [{| path := parent (resolve (Path_of f));
        event_handler :=
          {| matching :=
               RegexMatching
                 [{| re_items :=
                       AT_BEGINNING ::
                       (literals (path_str (resolve (Path_of f))) ++ [AT_END])%list;
                     re_ignorecase := false |}] [];
             ignore_directories := true;
             case_sensitive := true;
             on_any_event := bound__validator_wrapper self |};
        recursive := false; static_folder := false;
        self_create := None; self_delete := None |}].
Proof.
  intros [[Hcls ->] | [Hcls ->]] Hf; unfold get_path_handlers; rewrite Hcls;
    unfold TemplateTrigger_get_path_handlers, APIGatewayCodeTrigger_get_path_handlers;
    rewrite Hf; cbn [obind]; rewrite get_single_file_path_handler_returns; reflexivity.
Qed.

(** What the bound wrapper does when called. *)
Lemma _validator_wrapper_run self name v cb :
  (__class__ self = TemplateTrigger /\ name = "_on_template_change" \/
   __class__ self = APIGatewayCodeTrigger /\ name = "_on_code_change") ->
  getattr self "_validator" = Return (AValidator v) ->
  getattr self name = Return (ACallback cb) ->
  gated_by v cb (bound__validator_wrapper self).
Proof.
  intros Hcls Hv Hcb event st. cbn [call]. unfold _validator_wrapper.
  destruct Hcls as [[-> ->] | [-> ->]];
    unfold TemplateTrigger__validator_wrapper, APIGatewayCodeTrigger__validator_wrapper;
    rewrite bind_lift, Hv; cbn [obind as_validator];
    unfold bind at 1, validate_;
    destruct (validate v (world st)) as [[] w]; cbn [fst snd];
    try reflexivity;
    rewrite bind_lift, Hcb; cbn [obind as_callable]; unfold invoke; cbn [world calls];
    destruct (run_callback cb event w); reflexivity.
Qed.

(** C6.  The one handler of a constructed function or layer trigger has
    [on_any_event], [self_create] and [self_delete] all set to the
    callback that was supplied, itself and not a wrapper of it. *)
Theorem directory_trigger_wires_callback cls rid stacks cb self :
  directory_based cls = true ->
  new_code_trigger cls rid stacks cb = Return self ->
  exists h,
    get_path_handlers self = Return [h] /\
    on_any_event (event_handler h) = callback cb /\
    self_create h = Some (callback cb) /\
    self_delete h = Some (callback cb).
Proof.
  intros Hcls Hnew.
  destruct (new_directory_trigger_inv _ _ _ _ _ Hcls Hnew) as (Hc & [u Hu] & Hcb).
  eexists. split.
  - apply (directory_trigger_handlers self u cb); [now rewrite Hc | exact Hu | exact Hcb].
  - repeat split.
Qed.

(** C9.  A constructed trigger of any class resolves to exactly one
    path handler; the handler is recursive exactly for the triggers on a
    code directory and not recursive exactly for those on a single
    file. *)
Theorem one_handler_per_trigger self :
  constructed self ->
  exists h,
    get_path_handlers self = Return [h] /\
    (recursive h = true <-> directory_based (__class__ self) = true) /\
    (recursive h = false <-> single_file_based (__class__ self) = true).
Proof.
  intros Hcons. destruct Hcons as [tf cb s Hnew | cls rid stacks cb s Hnew].
  - rewrite new_TemplateTrigger_returns in Hnew. injection Hnew as <-.
    eexists. split.
    + apply (single_file_trigger_handlers _ "_template_file" tf).
      * left. split; reflexivity.
      * rewrite !getattr_with_attr_ne by discriminate.
        now rewrite getattr_with_attr.
    + cbn. split; split; congruence.
  - destruct (directory_based cls) eqn:Hd.
    + destruct (new_directory_trigger_inv _ _ _ _ _ Hd Hnew) as (Hc & [u Hu] & Hcb).
      eexists. split.
      * apply (directory_trigger_handlers s u cb);
          [now rewrite Hc | exact Hu | exact Hcb].
      * rewrite Hc. cbn [recursive]. rewrite Hd.
        assert (Hs : single_file_based cls = false)
          by (destruct cls; cbn in Hd |- *; congruence).
        rewrite Hs. split; split; congruence.
    + destruct cls; cbn [directory_based] in Hd; try discriminate.
      destruct (new_api_trigger_inv _ _ _ _ Hnew) as (Hc & (f & v & Hf & Hv) & Hcb).
      eexists. split.
      * apply (single_file_trigger_handlers _ "_definition_file" f).
        -- right. split; [exact Hc | reflexivity].
        -- now rewrite Hf.
      * rewrite Hc. cbn. split; split; congruence.
Qed.

(** C2.  The [on_any_event] of the handler of a constructed template
    trigger or API trigger runs the callback behind the trigger's
    validator: when [validate] answers false the callback is not called
    and the call returns normally; when it answers true the callback is
    called once, with the event the wrapper was given. *)
Theorem validator_wrapper_gates_callback :
  (forall template_file cb self h,
     new_TemplateTrigger template_file cb = Return self ->
     get_path_handlers self = Return [h] ->
     gated_by (new_DefinitionValidator (Path_of template_file)) cb
       (on_any_event (event_handler h))) /\
  (forall rid stacks cb self h,
     new_code_trigger APIGatewayCodeTrigger rid stacks cb = Return self ->
     get_path_handlers self = Return [h] ->
     exists v,
       getattr self "_validator" = Return (AValidator v) /\
       gated_by v cb (on_any_event (event_handler h))).
Proof.
  split.
  - intros tf cb self h Hnew Hh.
    rewrite new_TemplateTrigger_returns in Hnew. injection Hnew as Hself.
    rewrite (single_file_trigger_handlers self "_template_file" tf) in Hh.
    + injection Hh as <-. cbn [event_handler on_any_event].
      apply (_validator_wrapper_run self "_on_template_change"); subst self.
      * left. split; reflexivity.
      * apply getattr_with_attr.
      * rewrite getattr_with_attr_ne by discriminate. apply getattr_with_attr.
    + left. subst self. split; reflexivity.
    + subst self. rewrite !getattr_with_attr_ne by discriminate.
      now rewrite getattr_with_attr.
  - intros rid stacks cb self h Hnew Hh.
    destruct (new_api_trigger_inv _ _ _ _ Hnew) as (Hc & (f & v & Hf & Hv) & Hcb).
    rewrite (single_file_trigger_handlers self "_definition_file" f) in Hh.
    + injection Hh as <-. cbn [event_handler on_any_event].
      exists v. split; [exact Hv|].
      apply (_validator_wrapper_run self "_on_code_change"); auto.
    + right. split; [exact Hc | reflexivity].
    + now rewrite Hf.
Qed.

End Resolution.

(** ** The instance at work *)

Import Demo.

(** The end-to-end scenario: a zip function with code in [./src]. *)
Example zip_trigger_of_Fn1 :
  obind (new_code_trigger LambdaZipCodeTrigger "Fn1" stacks "cb") get_path_handlers =
  Return
    [{| path := "/work/src";
        event_handler := {| matching := PatternMatching ["*"] [];
                            ignore_directories := false;
                            case_sensitive := true;
                            on_any_event := callback "cb" |};
        recursive := true; static_folder := true;
        self_create := Some (callback "cb");
        self_delete := Some (callback "cb") |}].
Proof. reflexivity. Qed.

Example image_trigger_without_context :
  new_code_trigger LambdaImageCodeTrigger "Img" stacks "cb" = Raise MissingCodeUri.
Proof. reflexivity. Qed.

Example api_trigger_without_properties :
  new_code_trigger APIGatewayCodeTrigger "ApiBare" stacks "cb" = Raise MissingDefinitionUri.
Proof. reflexivity. Qed.

(** The pattern the unit test expects for [/parent/file]. *)
Example single_file_regex_parent_file :
  single_file_regex (resolve (Path_of "/parent/file")) = "^\/parent\/file$".
Proof. reflexivity. Qed.

(** A file named like the watched one plus a final newline, in the same
    directory, goes through the single-file rule. *)
Example single_file_rule_newline :
  obind (get_single_file_path_handler "/parent/file")
    (fun h => forwards (event_handler h)
                (modified ("/parent/file" ++ String newline "") false)) = Return true /\
  obind (get_single_file_path_handler "/parent/file")
    (fun h => forwards (event_handler h) (modified "/parent/file.bak" false)) = Return false /\
  obind (get_single_file_path_handler "/parent/a.b")
    (fun h => forwards (event_handler h) (modified "/parent/aXb" false)) = Return false.
Proof. repeat split; reflexivity. Qed.

(** A template trigger at work: the validator answers false, then
    true; only the second event reaches the callback. *)
Example template_trigger_run :
  forall ev1 ev2,
  obind (new_TemplateTrigger "template.yaml" "cb") (fun self =>
  obind (get_path_handlers self) (fun hs =>
    match hs with
    | [h] =>
      Return ((call (on_any_event (event_handler h)) (Some ev1) ;;;
               call (on_any_event (event_handler h)) (Some ev2))
                {| world := [false; true]; calls := [] |})
    | _ => Raise ValueError
    end)) =
  Return (Return tt, {| world := []; calls := [("cb", Some ev2)] |}).
Proof. intros ev1 ev2. reflexivity. Qed.

(** ** The theorems at concrete inputs *)

Lemma construction_raises_when_not_found_witness :
  (is_code_trigger LambdaLayerCodeTrigger = true /\
   get_resource_by_id stacks "Nope" = None /\
   new_code_trigger LambdaLayerCodeTrigger "Nope" stacks "cb" = Raise ResourceNotFound /\
   code_trigger___init__ LambdaLayerCodeTrigger "Nope" stacks "cb"
     (fresh LambdaLayerCodeTrigger) =
   (Raise ResourceNotFound, fresh LambdaLayerCodeTrigger)) /\
  (is_function_trigger LambdaZipCodeTrigger = true /\
   resource_found stacks "Orphan" = Some {["Type" := PStr "AWS::Serverless::Function"]} /\
   SamFunctionProvider_get stacks (identifier_str "Orphan") = None /\
   new_code_trigger LambdaZipCodeTrigger "Orphan" stacks "cb" = Raise FunctionNotFound /\
   getattr (snd (code_trigger___init__ LambdaZipCodeTrigger "Orphan" stacks "cb"
                   (fresh LambdaZipCodeTrigger))) "_function" = Raise AttributeError).
Proof.
  split.
  - split; [reflexivity|]. split; [reflexivity|].
    apply (proj1 (@construction_raises_when_not_found collaborators)
             LambdaLayerCodeTrigger "Nope" stacks "cb"); reflexivity.
  - split; [reflexivity|]. split; [reflexivity|]. split; [reflexivity|].
    destruct (proj2 (@construction_raises_when_not_found collaborators)
                LambdaZipCodeTrigger "Orphan" stacks "cb"
                {["Type" := PStr "AWS::Serverless::Function"]}
                eq_refl eq_refl eq_refl)
      as (Hnew & _ & _ & _ & Hfun & _).
    split; [exact Hnew | exact Hfun].
Defined.

(** The resource record is on the instance when FunctionNotFound is
    raised: the initialiser does not leave the instance as it found
    it. *)
Lemma FunctionNotFound_after_resource_stored :
  new_code_trigger LambdaZipCodeTrigger "Orphan" stacks "cb" = Raise FunctionNotFound /\
  getattr (snd (code_trigger___init__ LambdaZipCodeTrigger "Orphan" stacks "cb"
                  (fresh LambdaZipCodeTrigger))) "_resource" =
  Return (AResource {["Type" := PStr "AWS::Serverless::Function"]}) /\
  ~ (forall name,
       getattr (snd (code_trigger___init__ LambdaZipCodeTrigger "Orphan" stacks "cb"
                       (fresh LambdaZipCodeTrigger))) name = Raise AttributeError).
Proof.
  assert (Hres :
    getattr (snd (code_trigger___init__ LambdaZipCodeTrigger "Orphan" stacks "cb"
                    (fresh LambdaZipCodeTrigger))) "_resource" =
    Return (AResource {["Type" := PStr "AWS::Serverless::Function"]}))
    by reflexivity.
  split; [reflexivity|]. split; [exact Hres|].
  intros Hnone. rewrite (Hnone "_resource") in Hres. discriminate Hres.
Qed.

Lemma validator_wrapper_gates_callback_witness :
  (exists self h,
     new_TemplateTrigger "template.yaml" "cb" = Return self /\
     get_path_handlers self = Return [h] /\
     gated_by (new_DefinitionValidator (Path_of "template.yaml")) "cb"
       (on_any_event (event_handler h))) /\
  (exists self h v,
     new_code_trigger APIGatewayCodeTrigger "Api1" stacks "cb" = Return self /\
     get_path_handlers self = Return [h] /\
     getattr self "_validator" = Return (AValidator v) /\
     gated_by v "cb" (on_any_event (event_handler h))).
Proof.
  split.
  - exists template_trigger. eexists.
    split; [reflexivity|]. split; [reflexivity|].
    apply (proj1 (@validator_wrapper_gates_callback collaborators)
             "template.yaml" "cb" template_trigger); reflexivity.
  - exists api_trigger. eexists. exists "api.yaml".
    split; [reflexivity|]. split; [reflexivity|]. split; [reflexivity|].
    destruct (proj2 (@validator_wrapper_gates_callback collaborators)
                "Api1" stacks "cb" api_trigger _ eq_refl eq_refl)
      as (v & Hv & Hg).
    injection Hv as <-. exact Hg.
Defined.

Lemma dir_handler_accepts_any_entry_witness :
  names_entry "/work/src/app.py" = true /\
  names_entry "src/app.py" = true /\
  matches (event_handler (get_dir_path_handler "src/")) ["/work/src/app.py"] = Return true /\
  matches (event_handler (get_dir_path_handler "src/")) ["src/app.py"] = Return true.
Proof.
  split; [reflexivity|]. split; [reflexivity|]. split.
  - apply (@dir_handler_accepts_any_entry collaborators "src/" "/work/src/app.py").
    reflexivity.
  - apply (@dir_handler_accepts_any_entry collaborators "src/" "src/app.py").
    reflexivity.
Defined.

Lemma code_location_and_MissingCodeUri_witness :
  is_function_trigger LambdaImageCodeTrigger = true /\
  SamFunctionProvider_get stacks (identifier_str "Img") =
    Some {| Function.codeuri := None;
            Function.metadata := Some {["Dockerfile" := "Dockerfile"]} |} /\
  new_code_trigger LambdaImageCodeTrigger "Img" stacks "cb" = Raise MissingCodeUri.
Proof.
  split; [reflexivity|]. split; [reflexivity|].
  apply (proj2 (proj2 (@code_location_and_MissingCodeUri collaborators))
           LambdaImageCodeTrigger "Img" stacks "cb"
           {["Type" := PStr "AWS::Serverless::Function"]}
           {| Function.codeuri := None;
              Function.metadata := Some {["Dockerfile" := "Dockerfile"]} |});
    [reflexivity | reflexivity | reflexivity | reflexivity].
Defined.

Lemma directory_trigger_wires_callback_witness :
  directory_based LambdaLayerCodeTrigger = true /\
  new_code_trigger LambdaLayerCodeTrigger "Layer1" stacks "cb" = Return layer_trigger /\
  exists h,
    get_path_handlers layer_trigger = Return [h] /\
    on_any_event (event_handler h) = callback "cb" /\
    self_create h = Some (callback "cb") /\
    self_delete h = Some (callback "cb").
Proof.
  split; [reflexivity|]. split; [reflexivity|].
  apply (@directory_trigger_wires_callback collaborators
           LambdaLayerCodeTrigger "Layer1" stacks "cb" layer_trigger); reflexivity.
Defined.

Lemma layer_construction_errors_witness :
  (resource_found stacks "Orphan" = Some {["Type" := PStr "AWS::Serverless::Function"]} /\
   SamLayerProvider_get stacks (identifier_str "Orphan") = None /\
   new_code_trigger LambdaLayerCodeTrigger "Orphan" stacks "cb" = Raise ResourceNotFound) /\
  (resource_found DemoEdge.stacks "Bare" =
     Some {["Type" := PStr "AWS::Serverless::LayerVersion"]} /\
   SamLayerProvider_get DemoEdge.stacks (identifier_str "Bare") =
     Some {| LayerVersion.codeuri := None |} /\
   str_truthy (LayerVersion.codeuri {| LayerVersion.codeuri := None |}) = false /\
   new_code_trigger LambdaLayerCodeTrigger "Bare" DemoEdge.stacks "cb" =
   Raise MissingCodeUri).
Proof.
  split.
  - split; [reflexivity|]. split; [reflexivity|].
    apply (proj1 (@layer_construction_errors collaborators) "Orphan" stacks "cb"
             {["Type" := PStr "AWS::Serverless::Function"]});
      [reflexivity | reflexivity].
  - split; [reflexivity|]. split; [reflexivity|]. split; [reflexivity|].
    apply (proj2 (@layer_construction_errors collaborators) "Bare" DemoEdge.stacks "cb"
             {["Type" := PStr "AWS::Serverless::LayerVersion"]}
             {| LayerVersion.codeuri := None |});
      [reflexivity | reflexivity | reflexivity].
Defined.

Lemma api_definition_uri_witness :
  resource_found stacks "ApiEmpty" = Some api_empty /\
  Properties_absent_or_dict api_empty = true /\
  truthy (default PNone (DefinitionUri_of api_empty)) = false /\
  new_code_trigger APIGatewayCodeTrigger "ApiEmpty" stacks "cb" = Raise MissingDefinitionUri.
Proof.
  split; [reflexivity|]. split; [reflexivity|].
  split; [reflexivity|].
  apply (proj1 (proj2 (@api_definition_uri collaborators "ApiEmpty" stacks "cb" api_empty
           ltac:(reflexivity) ltac:(reflexivity)))).
  reflexivity.
Defined.

Lemma one_handler_per_trigger_witness :
  new_code_trigger LambdaZipCodeTrigger "Fn1" stacks "cb" = Return zip_trigger /\
  exists h,
    get_path_handlers zip_trigger = Return [h] /\
    (recursive h = true <-> directory_based (__class__ zip_trigger) = true) /\
    (recursive h = false <-> single_file_based (__class__ zip_trigger) = true).
Proof.
  split; [reflexivity|].
  apply (@one_handler_per_trigger collaborators zip_trigger).
  apply (@constructed_code collaborators LambdaZipCodeTrigger "Fn1" stacks "cb").
  reflexivity.
Defined.

Lemma match_rules_directories_and_case_witness :
  (exists h,
     get_single_file_path_handler "/parent/file" = Return h /\
     forwards (event_handler h) (modified "/parent/file" true) = Return false /\
     matches (event_handler h) ["/parent/FILE"] = Return false) /\
  names_entry (src_path (modified "/work/src/lib" true)) = true /\
  forwards (event_handler (get_dir_path_handler "src/")) (modified "/work/src/lib" true) =
  Return true /\
  forwards (event_handler (get_dir_path_handler "src/")) (modified "/work/src/a.py" false) =
  Return true.
Proof.
  pose proof (@match_rules_directories_and_case collaborators) as (Hdir & Hany & Hcase & _).
  split; [|split; [reflexivity|split]].
  - eexists. split; [reflexivity|]. split.
    + apply (Hdir "/parent/file"); reflexivity.
    + apply (Hcase "/parent/file" _ "/parent/FILE");
        [reflexivity | discriminate | reflexivity].
  - apply (Hany "src/" (modified "/work/src/lib" true)). reflexivity.
  - apply (Hany "src/" (modified "/work/src/a.py" false)). reflexivity.
Defined.

(** The error is not confined to a missing value: here [DefinitionUri]
    is there, and empty, and MissingDefinitionUri is raised all the
    same. *)
Lemma api_empty_definition_uri_raises :
  get_resource_by_id stacks "ApiEmpty" = Some api_empty /\
  DefinitionUri_of api_empty = Some (PStr "") /\
  ~ (new_code_trigger APIGatewayCodeTrigger "ApiEmpty" stacks "cb" =
       Raise MissingDefinitionUri <->
     DefinitionUri_of api_empty = None).
Proof.
  split; [reflexivity|]. split; [reflexivity|].
  intros [Hraise _].
  assert (Hnone : DefinitionUri_of api_empty = None)
    by (apply Hraise; reflexivity).
  vm_compute in Hnone. discriminate.
Qed.

(** * Further properties *)

Lemma str_truthy_spec (o : option string) :
  str_truthy o = true <-> exists s, o = Some s /\ s <> "".
Proof.
  destruct o as [s|]; cbn [str_truthy].
  - rewrite negb_true_iff, String.eqb_neq. split.
    + intros Hs. exists s. split; [reflexivity | exact Hs].
    + intros (s' & [= <-] & Hs). exact Hs.
  - split; [discriminate | intros (s & Hs & _); discriminate].
Qed.

Lemma dict_truthy_empty {V} : dict_truthy (∅ : gmap string V) = false.
Proof. unfold dict_truthy. now rewrite bool_decide_eq_true_2. Qed.

Section SingleFileHandlers.
Context `{Collaborators}.

Lemma existsb_re_match_anchored (p : string) (paths : list string) :
  existsb (re_match {| re_items := AT_BEGINNING :: (literals p ++ [AT_END])%list;
                       re_ignorecase := false |}) paths =
  existsb (path_or_newline p) paths.
Proof.
  induction paths as [|q paths IH]; [reflexivity|].
  cbn [existsb]. rewrite IH. f_equal. apply match_anchored_literals.
Qed.

Lemma matches_single_file_event_handler (file_path : Path) (f : Callable)
    (paths : list string) :
  matches (single_file_event_handler file_path f) paths =
  Return (existsb (path_or_newline (path_str file_path)) paths).
Proof.
  unfold matches, single_file_event_handler, any_regex.
  cbn [matching existsb]. now rewrite existsb_re_match_anchored, orb_false_r.
Qed.

Lemma forwards_single_file_event_handler (file_path : Path) (f : Callable)
    (event : FileSystemEvent) :
  forwards (single_file_event_handler file_path f) event =
  Return (negb (is_directory event) &&
          existsb (path_or_newline (path_str file_path)) (event_paths event)).
Proof.
  unfold forwards. rewrite matches_single_file_event_handler.
  cbn [single_file_event_handler ignore_directories andb].
  destruct (is_directory event); reflexivity.
Qed.

Lemma get_path_handlers_single_file self name f :
  (__class__ self = TemplateTrigger /\ name = "_template_file" \/
   __class__ self = APIGatewayCodeTrigger /\ name = "_definition_file") ->
  obind (getattr self name) as_str = Return f ->
  get_path_handlers self = Return [single_file_path_handler f self].
Proof. apply single_file_trigger_handlers. Qed.

Lemma get_path_handlers_code_dir self code_uri cb :
  directory_based (__class__ self) = true ->
  getattr self "_code_uri" = Return (AStr code_uri) ->
  getattr self "_on_code_change" = Return (ACallback cb) ->
  get_path_handlers self = Return [code_dir_path_handler code_uri cb].
Proof. apply directory_trigger_handlers. Qed.

(** One event through [dispatch] either leaves the run as it was or is
    handed to [on_any_event]. *)
Lemma dispatch_cases (h : EventHandler) (event : FileSystemEvent) (st : Run) :
  (exists r, dispatch h event st = (r, st)) \/
  dispatch h event st = call (on_any_event h) (Some event) st.
Proof.
  unfold dispatch. rewrite bind_lift.
  destruct (forwards h event) as [[]|e]; [right | left | left]; eauto.
Qed.

End SingleFileHandlers.

Section MoreConstruction.
Context `{Collaborators}.

(** X1.  A resource record that is an empty dictionary counts as
    missing: every code resource trigger raises ResourceNotFound on it,
    whatever the providers know about the identifier. *)
Theorem empty_resource_is_not_found cls rid stacks cb :
  is_code_trigger cls = true ->
  get_resource_by_id stacks rid = Some ∅ ->
  new_code_trigger cls rid stacks cb = Raise ResourceNotFound.
Proof.
  intros Hcls Hr. rewrite new_code_trigger_unfold.
  rewrite ResourceNotFound_assigns_nothing; [reflexivity | exact Hcls |].
  unfold resource_found. now rewrite Hr, dict_truthy_empty.
Qed.

(** X2.  A function code trigger is constructed exactly when the
    resource is found, the function provider knows the function, and the
    strategy of the class yields a non-empty string; the instance then
    holds the resource record, the callback, the function and that
    string as its code location, and nothing else. *)
Theorem function_trigger_construction cls rid stacks cb self :
  is_function_trigger cls = true ->
  new_code_trigger cls rid stacks cb = Return self <->
  exists resource function code_uri,
    resource_found stacks rid = Some resource /\
    SamFunctionProvider_get stacks (identifier_str rid) = Some function /\
    spec_code_location cls function = Some code_uri /\
    code_uri <> "" /\
    self =
    with_attr "_code_uri" (AStr code_uri)
      (with_attr "_function" (AFunction function)
         (with_attr "_on_code_change" (ACallback cb)
            (with_attr "_resource" (AResource resource) (fresh cls)))).
Proof.
  intros Hcls. rewrite new_code_trigger_unfold.
  assert (Hinit : code_trigger___init__ cls rid stacks cb (fresh cls) =
                  LambdaFunctionCodeTrigger___init__ rid stacks cb (fresh cls))
    by (destruct cls; try discriminate; reflexivity).
  rewrite Hinit, LambdaFunctionCodeTrigger___init___run by exact Hcls.
  cbn [fresh __class__].
  destruct (resource_found stacks rid) as [r|].
  2: { split; [discriminate | intros (r & f & u & Hr & _); discriminate]. }
  destruct (SamFunctionProvider_get stacks (identifier_str rid)) as [f|].
  2: { split; [discriminate | intros (r' & f & u & _ & Hf & _); discriminate]. }
  cbn zeta. destruct (str_truthy (spec_code_location cls f)) eqn:Et.
  - apply str_truthy_spec in Et as (u & Hu & Hne). rewrite Hu. cbn [default from_option id].
    split.
    + intros [= <-]. exists r, f, u. repeat split; auto.
    + intros (r' & f' & u' & [= <-] & [= <-] & Hu' & _ & ->).
      rewrite Hu in Hu'. injection Hu' as <-. reflexivity.
  - split; [discriminate|].
    intros (r' & f' & u' & _ & [= <-] & Hu' & Hne & _).
    assert (Ht : str_truthy (spec_code_location cls f) = true)
      by (apply str_truthy_spec; eauto).
    congruence.
Qed.

(** X3.  A layer code trigger is constructed exactly when the resource
    is found, the layer provider knows the layer, and the layer has a
    non-empty [codeuri]; the instance then holds the resource record,
    the callback, the layer and that [codeuri] as its code location. *)
Theorem layer_trigger_construction rid stacks cb self :
  new_code_trigger LambdaLayerCodeTrigger rid stacks cb = Return self <->
  exists resource layer code_uri,
    resource_found stacks rid = Some resource /\
    SamLayerProvider_get stacks (identifier_str rid) = Some layer /\
    LayerVersion.codeuri layer = Some code_uri /\
    code_uri <> "" /\
    self =
    with_attr "_code_uri" (AStr code_uri)
      (with_attr "_layer" (ALayer layer)
         (with_attr "_on_code_change" (ACallback cb)
            (with_attr "_resource" (AResource resource) (fresh LambdaLayerCodeTrigger)))).
Proof.
  rewrite new_code_trigger_unfold. cbn [code_trigger___init__].
  rewrite LambdaLayerCodeTrigger___init___run.
  destruct (resource_found stacks rid) as [r|].
  2: { split; [discriminate | intros (r & l & u & Hr & _); discriminate]. }
  destruct (SamLayerProvider_get stacks (identifier_str rid)) as [l|].
  2: { split; [discriminate | intros (r' & l & u & _ & Hl & _); discriminate]. }
  cbn zeta. destruct (str_truthy (LayerVersion.codeuri l)) eqn:Et.
  - apply str_truthy_spec in Et as (u & Hu & Hne). rewrite Hu. cbn [default from_option id].
    split.
    + intros [= <-]. exists r, l, u. repeat split; auto.
    + intros (r' & l' & u' & [= <-] & [= <-] & Hu' & _ & ->).
      rewrite Hu in Hu'. injection Hu' as <-. reflexivity.
  - split; [discriminate|].
    intros (r' & l' & u' & _ & [= <-] & Hu' & Hne & _).
    assert (Ht : str_truthy (LayerVersion.codeuri l) = true)
      by (apply str_truthy_spec; eauto).
    congruence.
Qed.

(** X4.  When the [Properties] of the resource is there and is not a
    dictionary (null, a string, a list, ...), constructing an API
    trigger fails in the lookup with AttributeError: neither a trigger
    nor MissingDefinitionUri comes out. *)
Theorem api_properties_not_a_dict rid stacks cb resource :
  resource_found stacks rid = Some resource ->
  Properties_absent_or_dict resource = false ->
  new_code_trigger APIGatewayCodeTrigger rid stacks cb = Raise AttributeError.
Proof.
  intros Hr Hp. rewrite new_code_trigger_unfold. cbn [code_trigger___init__].
  rewrite APIGatewayCodeTrigger___init___run, Hr. cbn zeta.
  unfold Properties_absent_or_dict in Hp.
  destruct (resource !! "Properties") as [[]|]; try discriminate; reflexivity.
Qed.

(** X5.  With the resource found and [Properties] missing or a
    dictionary, an API trigger is constructed exactly when
    [DefinitionUri] is a non-empty string; the instance then holds the
    resource record, the callback, that string as its definition file
    and a validator on the path as given.  A [DefinitionUri] that is
    true in a truth test and not a string, such as a bucket location,
    ends construction with TypeError. *)
Theorem api_trigger_construction rid stacks cb resource :
  resource_found stacks rid = Some resource ->
  Properties_absent_or_dict resource = true ->
  (forall self,
     new_code_trigger APIGatewayCodeTrigger rid stacks cb = Return self <->
     exists f,
       DefinitionUri_of resource = Some (PStr f) /\ f <> "" /\
       self =
       with_attr "_validator" (AValidator (new_DefinitionValidator (Path_of f)))
         (with_attr "_definition_file" (AVal (PStr f))
            (with_attr "_on_code_change" (ACallback cb)
               (with_attr "_resource" (AResource resource)
                  (fresh APIGatewayCodeTrigger))))) /\
  (forall v,
     DefinitionUri_of resource = Some v ->
     truthy v = true ->
     (forall f, v <> PStr f) ->
     new_code_trigger APIGatewayCodeTrigger rid stacks cb = Raise TypeError).
Proof.
  intros Hr Hp. rewrite new_code_trigger_unfold. cbn [code_trigger___init__].
  rewrite APIGatewayCodeTrigger___init___run, Hr. cbn zeta.
  rewrite (py_get_DefinitionUri _ Hp). split.
  - intros self.
    destruct (DefinitionUri_of resource) as [v|]; cbn [default from_option id truthy].
    2: { split; [discriminate | intros (f & Hf & _); discriminate]. }
    destruct v; cbn [truthy as_str];
      try (split; [try discriminate; destruct b; discriminate
                  | intros (f & Hf & _); discriminate]).
    + destruct (Z.eqb z 0); cbn [negb];
        (split; [discriminate | intros (f & Hf & _); discriminate]).
    + destruct (String.eqb s "") eqn:Es; cbn [negb].
      * apply String.eqb_eq in Es. subst s.
        split; [discriminate | intros (f & [= <-] & Hne & _); congruence].
      * apply String.eqb_neq in Es. split.
        -- intros [= <-]. exists s. repeat split; auto.
        -- intros (f & [= <-] & _ & ->). reflexivity.
    + destruct l; (split; [discriminate | intros (f & Hf & _); discriminate]).
    + destruct (dict_truthy d); (split; [discriminate | intros (f & Hf & _); discriminate]).
  - intros v Hv Ht Hns. rewrite Hv. cbn [default from_option id]. rewrite Ht.
    destruct v; cbn [as_str]; try reflexivity. now destruct (Hns s).
Qed.

End MoreConstruction.

Section MoreResolution.
Context `{Collaborators}.

Lemma new_function_trigger_returns cls rid stacks cb resource function code_uri :
  is_function_trigger cls = true ->
  resource_found stacks rid = Some resource ->
  SamFunctionProvider_get stacks (identifier_str rid) = Some function ->
  spec_code_location cls function = Some code_uri ->
  code_uri <> "" ->
  new_code_trigger cls rid stacks cb =
  Return
    (with_attr "_code_uri" (AStr code_uri)
       (with_attr "_function" (AFunction function)
          (with_attr "_on_code_change" (ACallback cb)
             (with_attr "_resource" (AResource resource) (fresh cls))))).
Proof.
  intros Hcls Hr Hf Hu Hne. rewrite new_code_trigger_unfold.
  assert (Hinit : code_trigger___init__ cls rid stacks cb (fresh cls) =
                  LambdaFunctionCodeTrigger___init__ rid stacks cb (fresh cls))
    by (destruct cls; try discriminate; reflexivity).
  rewrite Hinit, LambdaFunctionCodeTrigger___init___run by exact Hcls.
  rewrite Hr, Hf. cbn [fresh __class__]. cbn zeta. rewrite Hu.
  cbn [str_truthy default from_option id].
  apply String.eqb_neq in Hne. now rewrite Hne.
Qed.

Lemma new_layer_trigger_returns rid stacks cb resource layer code_uri :
  resource_found stacks rid = Some resource ->
  SamLayerProvider_get stacks (identifier_str rid) = Some layer ->
  LayerVersion.codeuri layer = Some code_uri ->
  code_uri <> "" ->
  new_code_trigger LambdaLayerCodeTrigger rid stacks cb =
  Return
    (with_attr "_code_uri" (AStr code_uri)
       (with_attr "_layer" (ALayer layer)
          (with_attr "_on_code_change" (ACallback cb)
             (with_attr "_resource" (AResource resource)
                (fresh LambdaLayerCodeTrigger))))).
Proof.
  intros Hr Hl Hu Hne. rewrite new_code_trigger_unfold. cbn [code_trigger___init__].
  rewrite LambdaLayerCodeTrigger___init___run, Hr, Hl. cbn zeta. rewrite Hu.
  cbn [str_truthy default from_option id].
  apply String.eqb_neq in Hne. now rewrite Hne.
Qed.

Lemma new_api_trigger_returns rid stacks cb resource f :
  resource_found stacks rid = Some resource ->
  DefinitionUri_of resource = Some (PStr f) ->
  f <> "" ->
  new_code_trigger APIGatewayCodeTrigger rid stacks cb =
  Return
    (with_attr "_validator" (AValidator (new_DefinitionValidator (Path_of f)))
       (with_attr "_definition_file" (AVal (PStr f))
          (with_attr "_on_code_change" (ACallback cb)
             (with_attr "_resource" (AResource resource)
                (fresh APIGatewayCodeTrigger))))).
Proof.
  intros Hr Hf Hne. rewrite new_code_trigger_unfold. cbn [code_trigger___init__].
  rewrite APIGatewayCodeTrigger___init___run, Hr. cbn zeta.
  assert (Hp : Properties_absent_or_dict resource = true).
  { unfold Properties_absent_or_dict, DefinitionUri_of in *.
    destruct (resource !! "Properties") as [[]|]; try discriminate; reflexivity. }
  rewrite (py_get_DefinitionUri _ Hp), Hf. cbn [default from_option id truthy as_str].
  apply String.eqb_neq in Hne. now rewrite Hne.
Qed.

(** X6.  A function code trigger resolves to one handler on the
    resolved form of the code location its strategy yields: recursive,
    a static folder, matching every entry, directories included, with
    the callback in all three slots. *)
Theorem function_trigger_watches_code_location cls rid stacks cb resource function code_uri :
  is_function_trigger cls = true ->
  resource_found stacks rid = Some resource ->
  SamFunctionProvider_get stacks (identifier_str rid) = Some function ->
  spec_code_location cls function = Some code_uri ->
  code_uri <> "" ->
  obind (new_code_trigger cls rid stacks cb) get_path_handlers =
  Return [code_dir_path_handler code_uri cb].
Proof.
  intros Hcls Hr Hf Hu Hne.
  rewrite (new_function_trigger_returns _ _ _ _ _ _ _ Hcls Hr Hf Hu Hne). cbn [obind].
  apply get_path_handlers_code_dir.
  - cbn [with_attr __class__ fresh]. destruct cls; try discriminate; reflexivity.
  - apply getattr_with_attr.
  - rewrite !getattr_with_attr_ne by discriminate. apply getattr_with_attr.
Qed.

(** X7.  A layer code trigger resolves to one handler on the resolved
    form of the layer's [codeuri], of the same shape as the handler of
    a function trigger. *)
Theorem layer_trigger_watches_codeuri rid stacks cb resource layer code_uri :
  resource_found stacks rid = Some resource ->
  SamLayerProvider_get stacks (identifier_str rid) = Some layer ->
  LayerVersion.codeuri layer = Some code_uri ->
  code_uri <> "" ->
  obind (new_code_trigger LambdaLayerCodeTrigger rid stacks cb) get_path_handlers =
  Return [code_dir_path_handler code_uri cb].
Proof.
  intros Hr Hl Hu Hne.
  rewrite (new_layer_trigger_returns _ _ _ _ _ _ Hr Hl Hu Hne). cbn [obind].
  apply get_path_handlers_code_dir.
  - reflexivity.
  - apply getattr_with_attr.
  - rewrite !getattr_with_attr_ne by discriminate. apply getattr_with_attr.
Qed.

(** X8.  Constructing a template trigger never raises, whatever the
    path string.  The trigger keeps the path as given, binds its
    validator to it, and resolves to one handler on the parent
    directory of the resolved path: not recursive, not a static folder,
    without create or delete hooks, and with the trigger's own bound
    wrapper in [on_any_event]. *)
Theorem template_trigger_resolution template_file cb :
  exists self,
    new_TemplateTrigger template_file cb = Return self /\
    getattr self "_template_file" = Return (AStr template_file) /\
    getattr self "_on_template_change" = Return (ACallback cb) /\
    getattr self "_validator" =
      Return (AValidator (new_DefinitionValidator (Path_of template_file))) /\
    get_path_handlers self = Return [single_file_path_handler template_file self].
Proof.
  eexists. split; [apply new_TemplateTrigger_returns|].
  split; [rewrite !getattr_with_attr_ne by discriminate; apply getattr_with_attr|].
  split; [rewrite getattr_with_attr_ne by discriminate; apply getattr_with_attr|].
  split; [apply getattr_with_attr|].
  apply (get_path_handlers_single_file _ "_template_file").
  - left. split; reflexivity.
  - rewrite !getattr_with_attr_ne by discriminate. now rewrite getattr_with_attr.
Qed.

(** X9.  An API trigger whose resource has a non-empty string under
    [DefinitionUri] resolves to one handler on the parent directory of
    the resolved definition file: not recursive, not a static folder,
    without create or delete hooks, and with the trigger's own bound
    wrapper in [on_any_event]. *)
Theorem api_trigger_resolution rid stacks cb resource f :
  resource_found stacks rid = Some resource ->
  DefinitionUri_of resource = Some (PStr f) ->
  f <> "" ->
  exists self,
    new_code_trigger APIGatewayCodeTrigger rid stacks cb = Return self /\
    get_path_handlers self = Return [single_file_path_handler f self].
Proof.
  intros Hr Hf Hne. eexists. split; [apply (new_api_trigger_returns _ _ _ _ _ Hr Hf Hne)|].
  apply (get_path_handlers_single_file _ "_definition_file").
  - right. split; reflexivity.
  - rewrite getattr_with_attr_ne by discriminate. now rewrite getattr_with_attr.
Qed.

(** X10.  The handler of the single-file factory forwards an event
    exactly when the event is not on a directory and its source or its
    destination is the resolved path (or that path and a newline).  So
    a move onto the watched file is forwarded whatever was moved, and a
    move away from it as well. *)
Theorem single_file_handler_forwards file_path_str h :
  get_single_file_path_handler file_path_str = Return h ->
  (forall event,
     forwards (event_handler h) event =
     Return (negb (is_directory event) &&
             existsb (path_or_newline (path_str (resolve (Path_of file_path_str))))
               (event_paths event))) /\
  (forall event,
     is_directory event = false ->
     dest_path event = Some (path_str (resolve (Path_of file_path_str))) \/
     src_path event = path_str (resolve (Path_of file_path_str)) /\ src_path event <> "" ->
     forwards (event_handler h) event = Return true).
Proof.
  rewrite get_single_file_path_handler_returns. intros [= <-].
  assert (Hfw : forall event,
    forwards (single_file_event_handler (resolve (Path_of file_path_str))
                FileSystemEventHandler_on_any_event) event =
    Return (negb (is_directory event) &&
            existsb (path_or_newline (path_str (resolve (Path_of file_path_str))))
              (event_paths event)))
    by (intros; apply forwards_single_file_event_handler).
  split; [exact Hfw|].
  intros event Hd Hp. cbn [event_handler]. 
  change (forwards (single_file_event_handler (resolve (Path_of file_path_str))
            FileSystemEventHandler_on_any_event) event = Return true).
  rewrite Hfw, Hd. cbn [negb andb]. f_equal.
  apply existsb_exists. exists (path_str (resolve (Path_of file_path_str))). split.
  - unfold event_paths. apply in_or_app. destruct Hp as [Hp | [Hp Hne]].
    + left. rewrite Hp. now left.
    + right. apply String.eqb_neq in Hne. rewrite Hne, Hp. now left.
  - unfold path_or_newline. now rewrite String.eqb_refl.
Qed.

End MoreResolution.

Section Dispatching.
Context `{Collaborators}.

Lemma dispatch_single_file_event_handler (file_path : Path) (f : Callable)
    (event : FileSystemEvent) (st : Run) :
  dispatch (single_file_event_handler file_path f) event st =
  if negb (is_directory event) &&
     existsb (path_or_newline (path_str file_path)) (event_paths event)
  then call f (Some event) st
  else (Return tt, st).
Proof.
  unfold dispatch. rewrite bind_lift, forwards_single_file_event_handler.
  destruct (negb (is_directory event) && _); reflexivity.
Qed.

(** A call of a supplied callback adds its entry to the log. *)
Lemma calls_invoke (cb : OnChangeCallback) (event : option FileSystemEvent) (st : Run) :
  calls (snd (invoke cb event st)) = (calls st ++ [(cb, event)])%list.
Proof. unfold invoke. destruct (run_callback cb event (world st)); reflexivity. Qed.

(** A call of a gated callable adds nothing to the log, or one entry. *)
Lemma calls_gated (v : DefinitionValidator) (cb : OnChangeCallback) (f : Callable)
    (event : option FileSystemEvent) (st : Run) :
  gated_by v cb f ->
  calls (snd (call f event st)) = calls st \/
  calls (snd (call f event st)) = (calls st ++ [(cb, event)])%list.
Proof.
  intros Hg. rewrite (Hg event st).
  destruct (fst (validate v (world st))); [right | left]; reflexivity.
Qed.

(** X11.  On the handler of a template trigger or of an API trigger,
    [dispatch] runs the validator wrapper for an event that is not on a
    directory and has, among its paths, the resolved file or the
    resolved file followed by one newline; for any other event it
    returns at once with the run untouched: the validator is not
    consulted and no callback is called. *)
Theorem single_file_trigger_dispatch :
  (forall template_file cb self h event st,
     new_TemplateTrigger template_file cb = Return self ->
     get_path_handlers self = Return [h] ->
     dispatch (event_handler h) event st =
     if negb (is_directory event) &&
        existsb (path_or_newline (path_str (resolve (Path_of template_file))))
          (event_paths event)
     then _validator_wrapper self (Some event) st
     else (Return tt, st)) /\
  (forall rid stacks cb resource f self h event st,
     resource_found stacks rid = Some resource ->
     DefinitionUri_of resource = Some (PStr f) ->
     new_code_trigger APIGatewayCodeTrigger rid stacks cb = Return self ->
     get_path_handlers self = Return [h] ->
     dispatch (event_handler h) event st =
     if negb (is_directory event) &&
        existsb (path_or_newline (path_str (resolve (Path_of f)))) (event_paths event)
     then _validator_wrapper self (Some event) st
     else (Return tt, st)).
Proof.
  split.
  - intros tf cb self h event st Hnew Hh.
    rewrite new_TemplateTrigger_returns in Hnew. injection Hnew as Hself.
    rewrite (get_path_handlers_single_file self "_template_file" tf) in Hh.
    + injection Hh as <-. apply dispatch_single_file_event_handler.
    + left. subst self. split; reflexivity.
    + subst self. rewrite !getattr_with_attr_ne by discriminate.
      now rewrite getattr_with_attr.
  - intros rid stacks cb resource f self h event st Hr Hf Hnew Hh.
    destruct (String.eqb f "") eqn:Ef.
    + apply String.eqb_eq in Ef. subst f. exfalso.
      rewrite new_code_trigger_unfold in Hnew. cbn [code_trigger___init__] in Hnew.
      rewrite APIGatewayCodeTrigger___init___run, Hr in Hnew. cbn zeta in Hnew.
      assert (Hp : Properties_absent_or_dict resource = true).
      { unfold Properties_absent_or_dict, DefinitionUri_of in *.
        destruct (resource !! "Properties") as [[]|]; try discriminate; reflexivity. }
      rewrite (py_get_DefinitionUri _ Hp), Hf in Hnew. discriminate.
    + apply String.eqb_neq in Ef.
      rewrite (new_api_trigger_returns _ _ _ _ _ Hr Hf Ef) in Hnew.
      injection Hnew as Hself.
      rewrite (get_path_handlers_single_file self "_definition_file" f) in Hh.
      * injection Hh as <-. apply dispatch_single_file_event_handler.
      * right. subst self. split; reflexivity.
      * subst self. rewrite getattr_with_attr_ne by discriminate.
        now rewrite getattr_with_attr.
Qed.

(** X12.  On the handler of a function or layer trigger, [dispatch] of
    an event whose source path names an entry, whether on a file or on
    a directory, calls the supplied callback with that event: the log
    of calls grows by exactly that one call. *)
Theorem directory_trigger_dispatch cls rid stacks cb self h event st :
  directory_based cls = true ->
  new_code_trigger cls rid stacks cb = Return self ->
  get_path_handlers self = Return [h] ->
  names_entry (src_path event) = true ->
  dispatch (event_handler h) event st = invoke cb (Some event) st /\
  calls (snd (dispatch (event_handler h) event st)) =
  (calls st ++ [(cb, Some event)])%list.
Proof.
  intros Hcls Hnew Hh Hsrc.
  destruct (new_directory_trigger_inv _ _ _ _ _ Hcls Hnew) as (Hc & [u Hu] & Hcb).
  rewrite (get_path_handlers_code_dir self u cb) in Hh;
    [| now rewrite Hc | exact Hu | exact Hcb].
  injection Hh as <-.
  assert (Hd : dispatch (event_handler (code_dir_path_handler u cb)) event st =
               invoke cb (Some event) st).
  { unfold dispatch. rewrite bind_lift.
    unfold forwards, matches, event_paths.
    cbn [code_dir_path_handler event_handler matching case_sensitive
         ignore_directories andb on_any_event].
    destruct (String.eqb (src_path event) "") eqn:Es.
    - apply String.eqb_eq in Es. rewrite Es in Hsrc. discriminate.
    - rewrite (match_any_paths_star _ _ Hsrc). reflexivity. }
  split; [exact Hd|]. rewrite Hd. apply calls_invoke.
Qed.

(** A handler whose [on_any_event] adds nothing to the log or one call
    of [cb] adds, over a run of events, a subsequence of the events in
    their order, each passed to [cb]. *)
Lemma dispatch_all_calls (h : EventHandler) (cb : OnChangeCallback) :
  (forall event st,
     calls (snd (call (on_any_event h) event st)) = calls st \/
     calls (snd (call (on_any_event h) event st)) = (calls st ++ [(cb, event)])%list) ->
  forall events st,
  exists log,
    calls (snd (dispatch_all h events st)) = (calls st ++ log)%list /\
    log `sublist_of` map (fun event => (cb, Some event)) events.
Proof.
  intros Hstep. induction events as [|event events IH]; intros st.
  - exists []. split; [cbn; now rewrite app_nil_r | constructor].
  - cbn [dispatch_all]. unfold bind at 1.
    assert (Hone : exists l,
      calls (snd (dispatch h event st)) = (calls st ++ l)%list /\
      (l = [] \/ l = [(cb, Some event)])).
    { destruct (dispatch_cases h event st) as [[r Hd] | Hd]; rewrite Hd.
      - exists []. split; [cbn; now rewrite app_nil_r | now left].
      - destruct (Hstep (Some event) st) as [Hc | Hc]; rewrite Hc.
        + exists []. split; [now rewrite app_nil_r | now left].
        + eexists. split; [reflexivity | now right]. }
    destruct Hone as (l & Hl & Hcase).
    destruct (dispatch h event st) as [[[]|e] st1]; cbn [snd] in Hl.
    + destruct (IH st1) as (log & Hlog & Hsub).
      exists (l ++ log)%list. split.
      * rewrite Hlog, Hl. now rewrite app_assoc.
      * cbn [map]. destruct Hcase as [-> | ->]; cbn [app].
        -- now apply sublist_cons.
        -- now apply sublist_skip.
    + exists l. split; [exact Hl|].
      cbn [map]. destruct Hcase as [-> | ->].
      * apply sublist_nil_l.
      * apply sublist_skip, sublist_nil_l.
Qed.

(** X13.  Whatever run of events goes through the handler of a
    constructed trigger, the log of calls only grows, and what is added
    is a subsequence of the events in their order, each passed to the
    callback the constructor was given: no other callable is called, no
    event is passed twice, none is made up. *)
Theorem handler_calls_only_the_callback :
  (forall template_file cb self h,
     new_TemplateTrigger template_file cb = Return self ->
     get_path_handlers self = Return [h] ->
     forall events st,
     exists log,
       calls (snd (dispatch_all (event_handler h) events st)) = (calls st ++ log)%list /\
       log `sublist_of` map (fun event => (cb, Some event)) events) /\
  (forall cls rid stacks cb self h,
     new_code_trigger cls rid stacks cb = Return self ->
     get_path_handlers self = Return [h] ->
     forall events st,
     exists log,
       calls (snd (dispatch_all (event_handler h) events st)) = (calls st ++ log)%list /\
       log `sublist_of` map (fun event => (cb, Some event)) events).
Proof.
  split.
  - intros tf cb s h Hnew Hh. apply dispatch_all_calls.
    rewrite new_TemplateTrigger_returns in Hnew. injection Hnew as Hs.
    rewrite (get_path_handlers_single_file s "_template_file" tf) in Hh.
    + injection Hh as <-. intros event st.
      apply (calls_gated (new_DefinitionValidator (Path_of tf)) cb).
      apply (_validator_wrapper_run s "_on_template_change"); subst s.
      * left. split; reflexivity.
      * apply getattr_with_attr.
      * rewrite getattr_with_attr_ne by discriminate. apply getattr_with_attr.
    + left. subst s. split; reflexivity.
    + subst s. rewrite !getattr_with_attr_ne by discriminate.
      now rewrite getattr_with_attr.
  - intros cls rid stacks cb s h Hnew Hh. apply dispatch_all_calls.
    destruct (directory_based cls) eqn:Hd.
    + destruct (new_directory_trigger_inv _ _ _ _ _ Hd Hnew) as (Hc & [u Hu] & Hcb).
      rewrite (get_path_handlers_code_dir s u cb) in Hh;
        [| now rewrite Hc | exact Hu | exact Hcb].
      injection Hh as <-. intros event st. right. apply calls_invoke.
    + destruct cls; cbn [directory_based] in Hd; try discriminate.
      destruct (new_api_trigger_inv _ _ _ _ Hnew) as (Hc & (f & v & Hf & Hv) & Hcb).
      rewrite (get_path_handlers_single_file s "_definition_file" f) in Hh.
      * injection Hh as <-. intros event st.
        apply (calls_gated v cb).
        apply (_validator_wrapper_run s "_on_code_change"); auto.
      * right. split; [exact Hc | reflexivity].
      * now rewrite Hf.
Qed.

End Dispatching.

(** ** The further properties at concrete inputs *)

Lemma empty_resource_is_not_found_witness :
  get_resource_by_id DemoEdge.stacks "Empty" = Some ∅ /\
  new_code_trigger LambdaLayerCodeTrigger "Empty" DemoEdge.stacks "cb" =
  Raise ResourceNotFound.
Proof.
  split; [reflexivity|].
  apply (@empty_resource_is_not_found collaborators
           LambdaLayerCodeTrigger "Empty" DemoEdge.stacks "cb"); reflexivity.
Defined.

Lemma function_trigger_construction_witness :
  new_code_trigger LambdaZipCodeTrigger "Fn1" stacks "cb" = Return zip_trigger.
Proof.
  apply (@function_trigger_construction collaborators
           LambdaZipCodeTrigger "Fn1" stacks "cb" zip_trigger eq_refl).
  exists {["Type" := PStr "AWS::Serverless::Function"]},
         {| Function.codeuri := Some "./src"; Function.metadata := None |}, "./src".
  split; [reflexivity|]. split; [reflexivity|]. split; [reflexivity|].
  split; [discriminate | reflexivity].
Defined.

Lemma layer_trigger_construction_witness :
  new_code_trigger LambdaLayerCodeTrigger "Layer1" stacks "cb" = Return layer_trigger.
Proof.
  apply (@layer_trigger_construction collaborators "Layer1" stacks "cb" layer_trigger).
  exists {["Type" := PStr "AWS::Serverless::LayerVersion"]},
         {| LayerVersion.codeuri := Some "layer/" |}, "layer/".
  split; [reflexivity|]. split; [reflexivity|]. split; [reflexivity|].
  split; [discriminate | reflexivity].
Defined.

Lemma api_properties_not_a_dict_witness :
  resource_found DemoEdge.stacks "ApiNull" = Some DemoEdge.api_null /\
  Properties_absent_or_dict DemoEdge.api_null = false /\
  new_code_trigger APIGatewayCodeTrigger "ApiNull" DemoEdge.stacks "cb" =
  Raise AttributeError.
Proof.
  split; [reflexivity|]. split; [reflexivity|].
  apply (@api_properties_not_a_dict collaborators
           "ApiNull" DemoEdge.stacks "cb" DemoEdge.api_null); reflexivity.
Defined.

Lemma api_trigger_construction_witness :
  new_code_trigger APIGatewayCodeTrigger "Api1" stacks "cb" = Return api_trigger /\
  new_code_trigger APIGatewayCodeTrigger "ApiBucket" DemoEdge.stacks "cb" =
  Raise TypeError.
Proof.
  split.
  - apply (proj1 (@api_trigger_construction collaborators "Api1" stacks "cb"
             (<["Properties" := PDict {["DefinitionUri" := PStr "api.yaml"]}]>
                {["Type" := PStr "AWS::Serverless::Api"]})
             eq_refl eq_refl) api_trigger).
    exists "api.yaml". split; [reflexivity|]. split; [discriminate | reflexivity].
  - apply (proj2 (@api_trigger_construction collaborators "ApiBucket" DemoEdge.stacks "cb"
             DemoEdge.api_bucket eq_refl eq_refl)
             (PDict (<["Bucket" := PStr "b"]> {["Key" := PStr "k"]})));
      [reflexivity | reflexivity | discriminate].
Defined.

Lemma function_trigger_watches_code_location_witness :
  obind (new_code_trigger LambdaZipCodeTrigger "Fn1" stacks "cb") get_path_handlers =
  Return [code_dir_path_handler "./src" "cb"] /\
  path (code_dir_path_handler "./src" "cb") = "/work/src".
Proof.
  split; [|reflexivity].
  apply (@function_trigger_watches_code_location collaborators
           LambdaZipCodeTrigger "Fn1" stacks "cb"
           {["Type" := PStr "AWS::Serverless::Function"]}
           {| Function.codeuri := Some "./src"; Function.metadata := None |} "./src");
    [reflexivity | reflexivity | reflexivity | reflexivity | discriminate].
Defined.

Lemma layer_trigger_watches_codeuri_witness :
  obind (new_code_trigger LambdaLayerCodeTrigger "Layer1" stacks "cb") get_path_handlers =
  Return [code_dir_path_handler "layer/" "cb"] /\
  path (code_dir_path_handler "layer/" "cb") = "/work/layer".
Proof.
  split; [|reflexivity].
  apply (@layer_trigger_watches_codeuri collaborators "Layer1" stacks "cb"
           {["Type" := PStr "AWS::Serverless::LayerVersion"]}
           {| LayerVersion.codeuri := Some "layer/" |} "layer/");
    [reflexivity | reflexivity | reflexivity | discriminate].
Defined.

Lemma api_trigger_resolution_witness :
  exists self,
    new_code_trigger APIGatewayCodeTrigger "Api1" stacks "cb" = Return self /\
    get_path_handlers self = Return [single_file_path_handler "api.yaml" self].
Proof.
  apply (@api_trigger_resolution collaborators "Api1" stacks "cb"
           (<["Properties" := PDict {["DefinitionUri" := PStr "api.yaml"]}]>
              {["Type" := PStr "AWS::Serverless::Api"]}) "api.yaml");
    [reflexivity | reflexivity | discriminate].
Defined.

Lemma single_file_handler_forwards_witness :
  exists h,
    get_single_file_path_handler "/parent/file" = Return h /\
    forwards (event_handler h) (DemoEdge.moved "/parent/file.tmp" "/parent/file" false) =
    Return true /\
    forwards (event_handler h) (DemoEdge.moved "/parent/file.tmp" "/parent/file" true) =
    Return false.
Proof.
  eexists. split; [reflexivity|].
  destruct (@single_file_handler_forwards collaborators "/parent/file" _ eq_refl)
    as [Hall Hmoved].
  split.
  - apply Hmoved; [reflexivity | left; reflexivity].
  - rewrite Hall. reflexivity.
Defined.

Lemma single_file_trigger_dispatch_witness :
  dispatch (event_handler (single_file_path_handler "template.yaml" template_trigger))
    (modified "/work/other.yaml" false) DemoEdge.start = (Return tt, DemoEdge.start) /\
  dispatch (event_handler (single_file_path_handler "template.yaml" template_trigger))
    (modified "/work/template.yaml" false) DemoEdge.start =
  _validator_wrapper template_trigger (Some (modified "/work/template.yaml" false))
    DemoEdge.start.
Proof.
  pose proof (proj1 (@single_file_trigger_dispatch collaborators)
                "template.yaml" "cb" template_trigger
                (single_file_path_handler "template.yaml" template_trigger)) as Hd.
  split.
  - rewrite (Hd (modified "/work/other.yaml" false) DemoEdge.start eq_refl eq_refl).
    reflexivity.
  - rewrite (Hd (modified "/work/template.yaml" false) DemoEdge.start eq_refl eq_refl).
    reflexivity.
Defined.

Lemma directory_trigger_dispatch_witness :
  calls (snd (dispatch (event_handler (@code_dir_path_handler collaborators "./src" "cb"))
                (modified "/work/src/lib" true) DemoEdge.start)) =
  [("cb" : OnChangeCallback, Some (modified "/work/src/lib" true))].
Proof.
  apply (@directory_trigger_dispatch collaborators LambdaZipCodeTrigger "Fn1" stacks "cb"
           zip_trigger (@code_dir_path_handler collaborators "./src" "cb")
           (modified "/work/src/lib" true) DemoEdge.start); reflexivity.
Defined.

Lemma handler_calls_only_the_callback_witness :
  (exists log,
     calls (snd (dispatch_all
                   (event_handler (single_file_path_handler "template.yaml" template_trigger))
                   [modified "/work/template.yaml" false] DemoEdge.start)) =
     (calls DemoEdge.start ++ log)%list /\
     log `sublist_of` [("cb" : OnChangeCallback, Some (modified "/work/template.yaml" false))]) /\
  (exists log,
     calls (snd (dispatch_all
                   (event_handler (@code_dir_path_handler collaborators "./src" "cb"))
                   [modified "/work/src/a.py" false] DemoEdge.start)) =
     (calls DemoEdge.start ++ log)%list /\
     log `sublist_of` [("cb" : OnChangeCallback, Some (modified "/work/src/a.py" false))]).
Proof.
  split.
  - apply (proj1 (@handler_calls_only_the_callback collaborators)
             "template.yaml" "cb" template_trigger
             (single_file_path_handler "template.yaml" template_trigger)
             eq_refl eq_refl [modified "/work/template.yaml" false] DemoEdge.start).
  - apply (proj2 (@handler_calls_only_the_callback collaborators)
             LambdaZipCodeTrigger "Fn1" stacks "cb" zip_trigger
             (@code_dir_path_handler collaborators "./src" "cb")
             eq_refl eq_refl [modified "/work/src/a.py" false] DemoEdge.start).
Defined.
